(** * hw_python_oop: fitness tracker (homework.py)

    A shallow embedding of [homework.py] and the properties its
    specification states about it.

    Python's [float] is IEEE 754 binary64; it is modelled by [spec_float]
    with [prec = 53] and [emax = 1024], whose operations round to nearest,
    ties to even; the exception is [**], which Python leaves to the C
    library's [pow] and which is modelled for every library whose [pow]
    returns one of the two doubles around the exact power ([Libm]).
    Python's [int] is [Z].  The dataclass fields are
    annotated [int] and [float] but nothing enforces the annotation (the
    driver fills them all with ints), so a field holds a [number]: an int
    or a float, and arithmetic goes through Python's coercion rules. *)

From Stdlib Require Import ZArith Bool List String Ascii Lia Floats.
From Stdlib Require Import DecimalString DecimalPos.
Import ListNotations.

Set Warnings "-inexact-float".

Local Open Scope Z_scope.

(** ** Exceptions and results *)

Inductive exn :=
| ZeroDivisionError
| OverflowError
| KeyError
| TypeError
| ValueError (msg : string).

Inductive result (A : Type) :=
| Ok (a : A)
| Raise (e : exn).

Arguments Ok {A} a.
Arguments Raise {A} e.

Definition bind {A B : Type} (r : result A) (k : A -> result B) : result B :=
  match r with
  | Ok a => k a
  | Raise e => Raise e
  end.

Definition try_except {A : Type} (r : result A) (h : exn -> result A) : result A :=
  match r with
  | Ok a => Ok a
  | Raise e => h e
  end.

Definition is_ok {A : Type} (r : result A) : bool :=
  match r with Ok _ => true | Raise _ => false end.

Declare Scope py_scope.
Delimit Scope py_scope with py.
Notation "x <- c ;; k" := (bind c (fun x => k))
  (at level 61, c at next level, right associativity) : py_scope.

(** ** binary64 floats *)

Module F64.

Definition fmul := SFmul prec emax.
Definition fdiv := SFdiv prec emax.
Definition fadd := SFadd prec emax.
Definition fsub := SFsub prec emax.
Definition of_Z (z : Z) : spec_float := binary_normalize prec emax z 0 false.

Definition pzero : spec_float := S754_zero false.
Definition one : spec_float := Eval vm_compute in Prim2SF 1%float.
Definition half : spec_float := Eval vm_compute in Prim2SF 0.5%float.

Definition is_zero (f : spec_float) : bool :=
  match f with S754_zero _ => true | _ => false end.

Definition is_nan (f : spec_float) : bool :=
  match f with S754_nan => true | _ => false end.

Definition is_inf (f : spec_float) : bool :=
  match f with S754_infinity _ => true | _ => false end.

Definition is_finite (f : spec_float) : bool :=
  match f with S754_zero _ | S754_finite _ _ _ => true | _ => false end.

(** The sign bit; a NaN carries none in this model. *)
Definition signbit (f : spec_float) : bool :=
  match f with
  | S754_zero s | S754_infinity s | S754_finite s _ _ => s
  | S754_nan => false
  end.

(** C truth value of a double: [x != 0.0], true for NaN. *)
Definition truthy (f : spec_float) : bool := negb (is_zero f).

(** [0 <= f] as Python compares floats: false for NaN, true for -0.0. *)
Definition nonneg (f : spec_float) : bool := SFleb pzero f.

(** C [fmod]: the exact remainder, with the sign of the dividend. *)
Definition fmod (x y : spec_float) : spec_float :=
  match x, y with
  | S754_nan, _ | _, S754_nan => S754_nan
  | S754_infinity _, _ => S754_nan
  | _, S754_zero _ => S754_nan
  | _, S754_infinity _ => x
  | S754_zero _, _ => x
  | S754_finite sx mx ex, S754_finite _ my ey =>
      let e := Z.min ex ey in
      let X := Z.shiftl (Zpos mx) (ex - e) in
      let Y := Z.shiftl (Zpos my) (ey - e) in
      binary_normalize prec emax (cond_Zopp sx (X mod Y)) e sx
  end.

(** C [floor]. *)
Definition floor (x : spec_float) : spec_float :=
  match x with
  | S754_finite s m e =>
      if 0 <=? e then x
      else binary_normalize prec emax
             (cond_Zopp s (Zpos m) / Z.shiftl 1 (- e)) 0 s
  | _ => x
  end.

(** C [copysign(0.0, x)]. *)
Definition zero_with_sign_of (x : spec_float) : spec_float :=
  S754_zero (signbit x).

End F64.

(** A decimal literal, rounded to binary64 the way Python reads it. *)
Notation "'flt' x" :=
  ltac:(let v := eval vm_compute in (Prim2SF x%float) in exact v)
  (at level 10, x at level 9, only parsing).

(** ** Python numbers *)

Inductive number :=
| PyInt (z : Z)
| PyFloat (f : spec_float).

Local Open Scope py_scope.

(** [PyLong_AsDouble]: round to nearest even, [OverflowError] ("int too
    large to convert to float") when the rounded value is out of range. *)
Definition int_to_float (z : Z) : result spec_float :=
  match F64.of_Z z with
  | S754_infinity _ => Raise OverflowError
  | f => Ok f
  end.

(** The conversion the float slots apply to each operand. *)
Definition as_float (n : number) : result spec_float :=
  match n with
  | PyInt z => int_to_float z
  | PyFloat f => Ok f
  end.

(** [int / int] ([long_true_divide]): the correctly rounded quotient. *)
Definition int_true_divide (a b : Z) : result spec_float :=
  if b =? 0 then Raise ZeroDivisionError
  else if a =? 0 then Ok (S754_zero (b <? 0))
  else
    let '(q, e, l) := SFdiv_core_binary prec emax (Z.abs a) 0 (Z.abs b) 0 in
    match binary_round_aux prec emax (xorb (a <? 0) (b <? 0)) q e l with
    | S754_infinity _ => Raise OverflowError
    | f => Ok f
    end.

(** [float_div]: both operands converted, then the zero check. *)
Definition float_div (a b : spec_float) : result spec_float :=
  if F64.is_zero b then Raise ZeroDivisionError else Ok (F64.fdiv a b).

(** [float_floor_div], through [_float_div_mod]. *)
Definition float_floor_div (vx wx : spec_float) : result spec_float :=
  if F64.is_zero wx then Raise ZeroDivisionError
  else
    let md := F64.fmod vx wx in
    let div := F64.fdiv (F64.fsub vx md) wx in
    let div :=
      if F64.truthy md
      then if xorb (SFltb wx F64.pzero) (SFltb md F64.pzero)
           then F64.fsub div F64.one else div
      else div in
    if F64.truthy div
    then
      let floordiv := F64.floor div in
      Ok (if SFltb F64.half (F64.fsub div floordiv)
          then F64.fadd floordiv F64.one else floordiv)
    else Ok (F64.zero_with_sign_of (F64.fdiv vx wx)).

(** *** The C library's [pow]

    [x ** 2] on a float is the one operation of the program that Python
    leaves to the C library: [float_pow] calls [pow(x, 2.0)].  Unlike
    [*] and [/], [pow] is not correctly rounded: when the exact square
    is not a double, the library returns one of the two doubles around
    it, and not always the nearer one (glibc's [pow] has an error just
    above half a unit in the last place), so that [x ** 2] and [x * x]
    can differ in the last bit.  Which of the two doubles comes back is
    the library's business and is a parameter of the embedding: for each
    argument, whether [pow] returns the upper one. *)
Class Libm := pow_rounds_up : spec_float -> bool.

(** The square of [m * 2^e] as the library returns it: the exact product
    cut down to the digits of the format, one unit in the last place
    more when the product was not exact and [up] is set, and then brought
    into range (a carry out of the mantissa, infinity past the largest
    double). *)
Definition faithful_square (up : bool) (m : positive) (e : Z) : spec_float :=
  let '(mrs, e') := shr_fexp prec emax (Zpos (m * m)) (e + e) loc_Exact in
  let m' := match loc_of_shr_record mrs with
            | loc_Exact => shr_m mrs
            | loc_Inexact _ => if up then shr_m mrs + 1 else shr_m mrs
            end in
  binary_round_aux prec emax false m' e' loc_Exact.

(** The two extreme libraries: one whose [pow] never returns the upper
    double, one whose [pow] always does.  At each argument a library
    agrees with one of them. *)
Definition pow_below : Libm := fun _ => false.
Definition pow_above : Libm := fun _ => true.

(** [float_pow] at the exponent 2.0.  CPython answers for a NaN, an
    infinity and a zero itself, and passes the magnitude of any other
    base to [pow]; an infinite result is a range error, which Python
    turns into [OverflowError], and an underflow is silent. *)
Definition float_pow2 {libm : Libm} (x : spec_float) : result spec_float :=
  match x with
  | S754_nan => Ok S754_nan
  | S754_infinity _ => Ok (S754_infinity false)
  | S754_zero _ => Ok (S754_zero false)
  | S754_finite _ m e =>
      match faithful_square (pow_rounds_up (S754_finite false m e)) m e with
      | S754_infinity _ => Raise OverflowError
      | f => Ok f
      end
  end.

Definition float_binop (op : spec_float -> spec_float -> spec_float)
    (a b : number) : result number :=
  x <- as_float a ;; y <- as_float b ;; Ok (PyFloat (op x y)).

(** [a * b] *)
Definition py_mul (a b : number) : result number :=
  match a, b with
  | PyInt x, PyInt y => Ok (PyInt (x * y))
  | _, _ => float_binop F64.fmul a b
  end.

(** [a + b] *)
Definition py_add (a b : number) : result number :=
  match a, b with
  | PyInt x, PyInt y => Ok (PyInt (x + y))
  | _, _ => float_binop F64.fadd a b
  end.

(** [a - b] *)
Definition py_sub (a b : number) : result number :=
  match a, b with
  | PyInt x, PyInt y => Ok (PyInt (x - y))
  | _, _ => float_binop F64.fsub a b
  end.

(** [a / b] *)
Definition py_truediv (a b : number) : result number :=
  match a, b with
  | PyInt x, PyInt y => f <- int_true_divide x y ;; Ok (PyFloat f)
  | _, _ =>
      x <- as_float a ;; y <- as_float b ;;
      f <- float_div x y ;; Ok (PyFloat f)
  end.

(** [a // b] *)
Definition py_floordiv (a b : number) : result number :=
  match a, b with
  | PyInt x, PyInt y =>
      if y =? 0 then Raise ZeroDivisionError else Ok (PyInt (x / y))
  | _, _ =>
      x <- as_float a ;; y <- as_float b ;;
      f <- float_floor_div x y ;; Ok (PyFloat f)
  end.

(** [a ** 2] *)
Definition py_pow2 {libm : Libm} (a : number) : result number :=
  match a with
  | PyInt x => Ok (PyInt (x * x))
  | PyFloat f => r <- float_pow2 f ;; Ok (PyFloat r)
  end.

(** ** The format specification [.3f] *)

(** The integer nearest to [num / den] ([den > 0]), ties to even: the
    rounding [PyOS_double_to_string] applies to the exact binary value. *)
Definition round_half_even (num den : Z) : Z :=
  let q := num / den in
  match (2 * (num mod den)) ?= den with
  | Lt => q
  | Gt => q + 1
  | Eq => if Z.even q then q else q + 1
  end.

(** The magnitude of a finite float in thousandths, rounded. *)
Definition thousandths (m : positive) (e : Z) : Z :=
  if 0 <=? e then Z.shiftl (Zpos m * 1000) e
  else round_half_even (Zpos m * 1000) (Z.shiftl 1 (- e)).

Definition digit_char (d : Z) : ascii := ascii_of_N (48 + Z.to_N d).

Definition decimal (n : Z) : string :=
  NilEmpty.string_of_uint (N.to_uint (Z.to_N n)).

Definition sign_string (s : bool) : string := (if s then "-" else "")%string.

(** [n] thousandths in fixed-point notation. *)
Definition fixed3 (n : Z) : string :=
  let f := n mod 1000 in
  (decimal (n / 1000) ++ "." ++
   String (digit_char (f / 100))
     (String (digit_char (f / 10 mod 10))
        (String (digit_char (f mod 10)) "")))%string.

(** [format(x, '.3f')] for a float [x]. *)
Definition float_format_3f (x : spec_float) : string :=
  match x with
  | S754_nan => "nan"
  | S754_infinity s => sign_string s ++ "inf"
  | S754_zero s => sign_string s ++ fixed3 0
  | S754_finite s m e => sign_string s ++ fixed3 (thousandths m e)
  end%string.

(** [format(n, '.3f')]: an int is converted to a float first. *)
Definition format_3f (n : number) : result string :=
  x <- as_float n ;; Ok (float_format_3f x).

(** The shape "digits, a point, three digits", after an optional sign. *)
Definition is_digit (c : ascii) : bool :=
  (N.leb 48 (N_of_ascii c) && N.leb (N_of_ascii c) 57)%bool.

Fixpoint all_digits (s : string) : bool :=
  match s with
  | EmptyString => true
  | String c r => (is_digit c && all_digits r)%bool
  end.

Definition three_decimals (s : string) : Prop :=
  exists sgn ip fr,
    s = (sign_string sgn ++ ip ++ "." ++ fr)%string /\
    ip <> EmptyString /\ all_digits ip = true /\
    String.length fr = 3%nat /\ all_digits fr = true.

(** ** Methods

    A method runs against [self] and hands back the object as the call
    leaves it together with its outcome. *)

Definition method (S A : Type) : Type := S -> S * result A.

Definition mret {S A : Type} (a : A) : method S A := fun self => (self, Ok a).

Definition mbind {S A B : Type} (m : method S A) (k : A -> method S B)
  : method S B :=
  fun self =>
    match m self with
    | (self', Ok a) => k a self'
    | (self', Raise e) => (self', Raise e)
    end.

(** An attribute read. *)
Definition attr {S A : Type} (f : S -> A) : method S A :=
  fun self => (self, Ok (f self)).

(** An expression that does not involve [self]. *)
Definition eval {S A : Type} (r : result A) : method S A :=
  fun self => (self, r).

Declare Scope meth_scope.
Delimit Scope meth_scope with meth.
Notation "x <- c ;; k" := (mbind c (fun x => k))
  (at level 61, c at next level, right associativity) : meth_scope.

(** ** class InfoMessage *)

Module InfoMessage.

Record t := Build {
  training_type : string;
  duration : number;
  distance : number;
  speed : number;
  calories : number
}.

(** [MESSAGE.format] applied to the fields [asdict(self)] copies out. *)
Definition get_message : method t string :=
  (ty <- attr training_type ;;
   du <- attr duration ;;
   di <- attr distance ;;
   sp <- attr speed ;;
   ca <- attr calories ;;
   du' <- eval (format_3f du) ;;
   di' <- eval (format_3f di) ;;
   sp' <- eval (format_3f sp) ;;
   ca' <- eval (format_3f ca) ;;
   mret ("Тип тренировки: " ++ ty ++ "; " ++
         "Длительность: " ++ du' ++ " ч.; " ++
         "Дистанция: " ++ di' ++ " км; " ++
         "Ср. скорость: " ++ sp' ++ " км/ч; " ++
         "Потрачено ккал: " ++ ca' ++ "."))%meth%string.

End InfoMessage.

(** ** class Training and its subclasses

    An object of one of the three classes [read_package] can build.
    The base class itself is never instantiated. *)

Inductive Training :=
| Running (action duration weight : number)
| SportsWalking (action duration weight height : number)
| Swimming (action duration weight length_pool count_pool : number).

Definition action (self : Training) : number :=
  match self with
  | Running a _ _ | SportsWalking a _ _ _ | Swimming a _ _ _ _ => a
  end.

Definition duration (self : Training) : number :=
  match self with
  | Running _ d _ | SportsWalking _ d _ _ | Swimming _ d _ _ _ => d
  end.

Definition weight (self : Training) : number :=
  match self with
  | Running _ _ w | SportsWalking _ _ w _ | Swimming _ _ w _ _ => w
  end.

(** [type(self).__name__] *)
Definition class_name (self : Training) : string :=
  match self with
  | Running _ _ _ => "Running"
  | SportsWalking _ _ _ _ => "SportsWalking"
  | Swimming _ _ _ _ _ => "Swimming"
  end%string.

(** Class attributes, resolved along the method resolution order. *)
Definition LEN_STEP (self : Training) : number :=
  match self with
  | Swimming _ _ _ _ _ => PyFloat (flt 1.38)
  | _ => PyFloat (flt 0.65)
  end.
Definition M_IN_KM : number := PyInt 1000.
Definition MIN_IN_HOUR : number := PyInt 60.
Definition RATIO_RUN_1 : number := PyInt 18.
Definition RATIO_RUN_2 : number := PyInt 20.
Definition RATIO_WLK_1 : number := PyFloat (flt 0.035).
Definition RATIO_WLK_2 : number := PyFloat (flt 0.029).
Definition RATIO_SWM_1 : number := PyFloat (flt 1.1).
Definition RATIO_SWM_2 : number := PyInt 2.

Local Open Scope meth_scope.

Definition Training_get_distance : method Training number :=
  a <- attr action ;;
  l <- attr LEN_STEP ;;
  x <- eval (py_mul a l) ;;
  eval (py_truediv x M_IN_KM).

(** The override repeats the body of the base class; the two differ
    through [self.LEN_STEP] only. *)
Definition Swimming_get_distance : method Training number :=
  a <- attr action ;;
  l <- attr LEN_STEP ;;
  x <- eval (py_mul a l) ;;
  eval (py_truediv x M_IN_KM).

(** [self.get_distance()], dispatched on the class of [self]. *)
Definition get_distance : method Training number :=
  fun self =>
    match self with
    | Swimming _ _ _ _ _ => Swimming_get_distance self
    | _ => Training_get_distance self
    end.

Definition Training_get_mean_speed : method Training number :=
  dist <- get_distance ;;
  d <- attr duration ;;
  eval (py_truediv dist d).

Definition Swimming_get_mean_speed (length_pool count_pool : number)
  : method Training number :=
  x <- eval (py_mul length_pool count_pool) ;;
  y <- eval (py_truediv x M_IN_KM) ;;
  d <- attr duration ;;
  eval (py_truediv y d).

(** [self.get_mean_speed()], dispatched on the class of [self]. *)
Definition get_mean_speed : method Training number :=
  fun self =>
    match self with
    | Swimming _ _ _ l c => Swimming_get_mean_speed l c self
    | _ => Training_get_mean_speed self
    end.

Definition Running_get_spent_calories : method Training number :=
  v <- get_mean_speed ;;
  x1 <- eval (py_mul RATIO_RUN_1 v) ;;
  x2 <- eval (py_sub x1 RATIO_RUN_2) ;;
  w <- attr weight ;;
  x3 <- eval (py_mul x2 w) ;;
  x4 <- eval (py_truediv x3 M_IN_KM) ;;
  d <- attr duration ;;
  x5 <- eval (py_mul x4 d) ;;
  eval (py_mul x5 MIN_IN_HOUR).

Definition SportsWalking_get_spent_calories {libm : Libm}
    (height : number) : method Training number :=
  w <- attr weight ;;
  x1 <- eval (py_mul RATIO_WLK_1 w) ;;
  v <- get_mean_speed ;;
  v2 <- eval (py_pow2 v) ;;
  x2 <- eval (py_floordiv v2 height) ;;
  x3 <- eval (py_mul x2 RATIO_WLK_2) ;;
  w' <- attr weight ;;
  x4 <- eval (py_mul x3 w') ;;
  x5 <- eval (py_add x1 x4) ;;
  d <- attr duration ;;
  x6 <- eval (py_mul x5 d) ;;
  eval (py_mul x6 MIN_IN_HOUR).

Definition Swimming_get_spent_calories : method Training number :=
  v <- get_mean_speed ;;
  x1 <- eval (py_add v RATIO_SWM_1) ;;
  x2 <- eval (py_mul x1 RATIO_SWM_2) ;;
  w <- attr weight ;;
  eval (py_mul x2 w).

(** [self.get_spent_calories()], dispatched on the class of [self]. *)
Definition get_spent_calories {libm : Libm} : method Training number :=
  fun self =>
    match self with
    | Running _ _ _ => Running_get_spent_calories self
    | SportsWalking _ _ _ h => SportsWalking_get_spent_calories h self
    | Swimming _ _ _ _ _ => Swimming_get_spent_calories self
    end.

Definition show_training_info {libm : Libm}
  : method Training InfoMessage.t :=
  name <- attr class_name ;;
  d <- attr duration ;;
  dist <- get_distance ;;
  v <- get_mean_speed ;;
  c <- get_spent_calories ;;
  mret (InfoMessage.Build name d dist v c).

(** ** read_package, main and the driver *)

Inductive class := cRunning | cSwimming | cSportsWalking.

Definition type_train : list (string * class) :=
  [("RUN", cRunning); ("SWM", cSwimming); ("WLK", cSportsWalking)]%string.

(** [d[key]] *)
Fixpoint getitem {V : Type} (d : list (string * V)) (key : string) : result V :=
  match d with
  | [] => Raise KeyError
  | (k, v) :: rest => if String.eqb k key then Ok v else getitem rest key
  end.

(** [cls] called on the unpacked [data]: the generated [__init__] binds its arguments in field
    order and rejects any other count with [TypeError]. *)
Definition construct (cls : class) (data : list number) : result Training :=
  match cls, data with
  | cRunning, [a; d; w] => Ok (Running a d w)
  | cSportsWalking, [a; d; w; h] => Ok (SportsWalking a d w h)
  | cSwimming, [a; d; w; l; c] => Ok (Swimming a d w l c)
  | _, _ => Raise TypeError
  end.

Definition unknown_workout : string := "Такой тренировки не существует"%string.

Definition read_package (workout_type : string) (data : list number)
  : result Training :=
  try_except
    (cls <- getitem type_train workout_type ;; construct cls data)%py
    (fun e => match e with
              | KeyError => Raise (ValueError unknown_workout)
              | _ => Raise e
              end).

(** [main]: the summary line is the one thing printed; [out] is what
    standard output holds, oldest line first. *)
Definition main {libm : Libm} (training : Training) (out : list string)
  : list string * result unit :=
  match show_training_info training with
  | (_, Raise e) => (out, Raise e)
  | (_, Ok info) =>
      match InfoMessage.get_message info with
      | (_, Raise e) => (out, Raise e)
      | (_, Ok line) => ((out ++ [line])%list, Ok tt)
      end
  end.

(** The loop at the end of the module, over [packages]. *)
Fixpoint run {libm : Libm} (packages : list (string * list number))
    (out : list string) : list string * result unit :=
  match packages with
  | [] => (out, Ok tt)
  | (workout_type, data) :: rest =>
      match read_package workout_type data with
      | Raise e => (out, Raise e)
      | Ok training =>
          match main training out with
          | (out', Ok _) => run rest out'
          | (out', Raise e) => (out', Raise e)
          end
      end
  end.

Definition packages : list (string * list number) :=
  [("SWM", [PyInt 720; PyInt 1; PyInt 80; PyInt 25; PyInt 40]);
   ("RUN", [PyInt 15000; PyInt 1; PyInt 75]);
   ("WLK", [PyInt 9000; PyInt 1; PyInt 75; PyInt 180])]%string.

(** ** The formulas of the specification

    Written from the specification's sentences with the same Python
    arithmetic, operands evaluated left to right. *)

Module Spec.

Definition lift2 (op : number -> number -> result number)
    (a b : result number) : result number :=
  (x <- a ;; y <- b ;; op x y)%py.

Declare Scope expr_scope.
Delimit Scope expr_scope with expr.
Notation "a * b" := (lift2 py_mul a b) : expr_scope.
Notation "a / b" := (lift2 py_truediv a b) : expr_scope.
Notation "a + b" := (lift2 py_add a b) : expr_scope.
Notation "a - b" := (lift2 py_sub a b) : expr_scope.

Definition val (n : number) : result number := Ok n.
Definition int (z : Z) : result number := Ok (PyInt z).
Definition lit (f : spec_float) : result number := Ok (PyFloat f).

Definition floor_divide (a b : result number) : result number :=
  lift2 py_floordiv a b.

Definition squared {libm : Libm} (a : result number) : result number :=
  (x <- a ;; py_pow2 x)%py.

Local Open Scope expr_scope.

(** [action_count * step_length_km / 1000] *)
Definition distance_km (step_length action_count : number) :=
  val action_count * val step_length / int 1000.

(** Running and Walking: [distance_km / duration_hours] *)
Definition mean_speed_kmh (action_count duration_hours : number) :=
  distance_km (PyFloat (flt 0.65)) action_count / val duration_hours.

(** Swimming:
    [(pool_length_m * pool_lap_count / 1000) / duration_hours] *)
Definition swimming_mean_speed_kmh
    (duration_hours pool_length_m pool_lap_count : number) :=
  (val pool_length_m * val pool_lap_count / int 1000) / val duration_hours.

(** [(18 * mean_speed_kmh - 20) * weight_kg / 1000 * duration_hours * 60] *)
Definition running_calories (action_count duration_hours weight_kg : number) :=
  (int 18 * mean_speed_kmh action_count duration_hours - int 20)
  * val weight_kg / int 1000 * val duration_hours * int 60.

(** [(0.035 * weight_kg
      + integer_floor_divide(mean_speed_kmh^2, height_cm) * 0.029 * weight_kg)
     * duration_hours * 60] *)
Definition walking_calories {libm : Libm}
    (action_count duration_hours weight_kg height_cm : number) :=
  (lit (flt 0.035) * val weight_kg
   + floor_divide (squared (mean_speed_kmh action_count duration_hours))
                  (val height_cm)
     * lit (flt 0.029) * val weight_kg)
  * val duration_hours * int 60.

(** The same formula with ordinary division in place of the floor
    division. *)
Definition walking_calories_true_division {libm : Libm}
    (action_count duration_hours weight_kg height_cm : number) :=
  (lit (flt 0.035) * val weight_kg
   + (squared (mean_speed_kmh action_count duration_hours) / val height_cm)
     * lit (flt 0.029) * val weight_kg)
  * val duration_hours * int 60.

(** [(mean_speed_kmh + 1.1) * 2 * weight_kg] *)
Definition swimming_calories
    (duration_hours weight_kg pool_length_m pool_lap_count : number) :=
  (swimming_mean_speed_kmh duration_hours pool_length_m pool_lap_count
   + lit (flt 1.1)) * int 2 * val weight_kg.

End Spec.

(** ** The three workouts of the driver *)

Definition swimming_example : Training :=
  Swimming (PyInt 720) (PyInt 1) (PyInt 80) (PyInt 25) (PyInt 40).
Definition running_example : Training :=
  Running (PyInt 15000) (PyInt 1) (PyInt 75).
Definition walking_example : Training :=
  SportsWalking (PyInt 9000) (PyInt 1) (PyInt 75) (PyInt 180).

Definition fast_walking_example : Training :=
  SportsWalking (PyInt 90000) (PyInt 1) (PyInt 75) (PyInt 180).

(** ** Predicates of the statements *)

(** The method hands [self] back as it received it. *)
Definition leaves_self {S A : Type} (m : method S A) : Prop :=
  forall self, fst (m self) = self.

(** Two calls in a row: the object after each call and the two
    outcomes. *)
Definition same_twice {S A : Type} (m : method S A) (self : S) : Prop :=
  let '(self1, r1) := m self in
  let '(self2, r2) := m self1 in
  self1 = self /\ self2 = self /\ r1 = r2.

(** A result that is a float. *)
Definition is_float (r : result number) : Prop :=
  exists f, r = Ok (PyFloat f).

(** Every exception of [r] is an OverflowError. *)
Definition only_overflow {A : Type} (r : result A) : Prop :=
  forall e, r = Raise e -> e = OverflowError.

(** Every exception of [r] is a ZeroDivisionError or an OverflowError. *)
Definition arith_only {A : Type} (r : result A) : Prop :=
  forall e, r = Raise e -> e = ZeroDivisionError \/ e = OverflowError.

(** [r] is an exception, a ZeroDivisionError or an OverflowError. *)
Definition faults {A : Type} (r : result A) : Prop :=
  r = Raise ZeroDivisionError \/ r = Raise OverflowError.

(** Python's [n == 0]. *)
Definition is_zero_number (n : number) : bool :=
  match n with
  | PyInt z => z =? 0
  | PyFloat f => F64.is_zero f
  end.

(** [n] is a float, or an int within the range of a float. *)
Definition fits (n : number) : bool := is_ok (as_float n).

(** [n > 0], finite, and within the range of a float. *)
Definition positive_finite (n : number) : bool :=
  match n with
  | PyInt z => (0 <? z) && is_ok (int_to_float z)
  | PyFloat (S754_finite false _ _) => true
  | PyFloat _ => false
  end.

(** [n >= 0], finite, and within the range of a float. *)
Definition nonneg_finite (n : number) : bool :=
  match n with
  | PyInt z => (0 <=? z) && is_ok (int_to_float z)
  | PyFloat f => F64.nonneg f && F64.is_finite f
  end.

(** When both pool fields are ints, their product over 1000 has to fit
    a float. *)
Definition pool_fits (l c : number) : bool :=
  match l, c with
  | PyInt x, PyInt y => is_ok (int_true_divide (x * y) 1000)
  | _, _ => true
  end.

(** A pool whose length and lap count are finite and not negative. *)
Definition valid_pool (self : Training) : bool :=
  match self with
  | Swimming _ _ _ l c => nonneg_finite l && nonneg_finite c && pool_fits l c
  | _ => true
  end.

(** The divisors of the metric formulas: the duration and, for
    SportsWalking, the height. *)
Definition nonzero_divisors (self : Training) : bool :=
  negb (is_zero_number (duration self)) &&
  match self with
  | SportsWalking _ _ _ h => negb (is_zero_number h)
  | _ => true
  end.

(** A SportsWalking record whose height is zero. *)
Definition zero_height (self : Training) : bool :=
  match self with
  | SportsWalking _ _ _ h => is_zero_number h
  | _ => false
  end.

(** Every field within the range of a float, and with it the integer
    pool distance of a Swimming record and the squared speed of a
    SportsWalking record. *)
Definition in_range {libm : Libm} (self : Training) : bool :=
  fits (action self) && fits (duration self) && fits (weight self) &&
  match self with
  | Running _ _ _ => true
  | SportsWalking _ _ _ h =>
      fits h &&
      match snd (get_mean_speed self) with
      | Ok v => is_ok (py_pow2 v)
      | Raise _ => true
      end
  | Swimming _ _ _ l c => fits l && fits c && pool_fits l c
  end.

(** [P] holds on both extreme libraries. *)
Definition on_both (P : Libm -> Prop) : Prop := P pow_below /\ P pow_above.

(** ** Vocabulary for the factory and the driver *)

(** The number of fields of a class, so of arguments of its
    constructor. *)
Definition field_count (cls : class) : nat :=
  match cls with
  | cRunning => 3
  | cSportsWalking => 4
  | cSwimming => 5
  end%nat.

Definition class_of (self : Training) : class :=
  match self with
  | Running _ _ _ => cRunning
  | SportsWalking _ _ _ _ => cSportsWalking
  | Swimming _ _ _ _ _ => cSwimming
  end.

(** The code under which [type_train] lists the class of [self]. *)
Definition code_of (self : Training) : string :=
  match self with
  | Running _ _ _ => "RUN"
  | SportsWalking _ _ _ _ => "WLK"
  | Swimming _ _ _ _ _ => "SWM"
  end%string.

(** The fields of [self] in declaration order. *)
Definition astuple (self : Training) : list number :=
  match self with
  | Running a d w => [a; d; w]
  | SportsWalking a d w h => [a; d; w; h]
  | Swimming a d w l c => [a; d; w; l; c]
  end.

(** What one turn of the driver's loop sends to [print]. *)
Definition report {libm : Libm} (package : string * list number)
  : result string :=
  (training <- read_package (fst package) (snd package) ;;
   info <- snd (show_training_info training) ;;
   snd (InfoMessage.get_message info))%py.

(** ** An instance of the base class

    [Training] can be instantiated as it is.  Such an object has the
    three fields; its [get_spent_calories] has a docstring for a body
    and so returns None, which the message then holds as calories. *)

Module Bare.

Record t := Build {
  action : number;
  duration : number;
  weight : number
}.

Definition get_distance : method t number :=
  a <- attr action ;;
  x <- eval (py_mul a (PyFloat (flt 0.65))) ;;
  eval (py_truediv x M_IN_KM).

Definition get_mean_speed : method t number :=
  dist <- get_distance ;;
  d <- attr duration ;;
  eval (py_truediv dist d).

(** [None] is Python's None. *)
Definition get_spent_calories : method t (option number) :=
  mret None.

(** The message of a bare instance. *)
Record info := BuildInfo {
  training_type : string;
  info_duration : number;
  distance : number;
  speed : number;
  calories : option number
}.

Definition show_training_info : method t info :=
  d <- attr duration ;;
  dist <- get_distance ;;
  v <- get_mean_speed ;;
  c <- get_spent_calories ;;
  mret (BuildInfo "Training" d dist v c).

(** [format(v, '.3f')]; None does not take a format specification. *)
Definition format_3f_value (v : option number) : result string :=
  match v with
  | Some n => format_3f n
  | None => Raise TypeError
  end.

Definition get_message : method info string :=
  (ty <- attr training_type ;;
   du <- attr info_duration ;;
   di <- attr distance ;;
   sp <- attr speed ;;
   ca <- attr calories ;;
   du' <- eval (format_3f du) ;;
   di' <- eval (format_3f di) ;;
   sp' <- eval (format_3f sp) ;;
   ca' <- eval (format_3f_value ca) ;;
   mret ("Тип тренировки: " ++ ty ++ "; " ++
         "Длительность: " ++ du' ++ " ч.; " ++
         "Дистанция: " ++ di' ++ " км; " ++
         "Ср. скорость: " ++ sp' ++ " км/ч; " ++
         "Потрачено ккал: " ++ ca' ++ "."))%meth%string.

Definition main (training : t) (out : list string)
  : list string * result unit :=
  match show_training_info training with
  | (_, Raise e) => (out, Raise e)
  | (_, Ok message) =>
      match get_message message with
      | (_, Raise e) => (out, Raise e)
      | (_, Ok line) => ((out ++ [line])%list, Ok tt)
      end
  end.

End Bare.

(** ** Vocabulary for the slow walker *)

(** A float field holds a canonical binary64 value, as every Python
    float is; an int field is any int. *)
Definition canonical (n : number) : bool :=
  match n with
  | PyInt _ => true
  | PyFloat f => valid_binary f
  end.

(** [0.035 * weight * duration * 60]: SportsWalking's formula without
    its speed term. *)
Definition weight_term_calories (weight duration : number) : result number :=
  Spec.lift2 py_mul
    (Spec.lift2 py_mul
       (Spec.lift2 py_mul (Spec.lit (flt 0.035)) (Spec.val weight))
       (Spec.val duration))
    (Spec.int 60).

(** ** Vocabulary for the slow runner *)

(** A float with its sign bit set that is not a NaN: a negative float,
    minus infinity or [-0.0]. *)
Definition sign_set (f : spec_float) : bool :=
  match f with
  | S754_nan => false
  | _ => F64.signbit f
  end.

(** * Properties *)

Arguments py_mul : simpl never.
Arguments py_add : simpl never.
Arguments py_sub : simpl never.
Arguments py_truediv : simpl never.
Arguments py_floordiv : simpl never.
Arguments py_pow2 : simpl never.
Arguments format_3f : simpl never.

(** ** One call of [pow]

    A workout calls [pow] at most once, so that on any library a
    metric comes out as it does on one of the two extreme libraries. *)

Lemma float_pow2_below_or_above {libm : Libm} (x : spec_float) :
  float_pow2 x = float_pow2 (libm := pow_below) x \/
  float_pow2 x = float_pow2 (libm := pow_above) x.
Proof.
  destruct x as [s|s| |s m e]; try (left; reflexivity).
  unfold float_pow2.
  destruct (pow_rounds_up (S754_finite false m e)); [right | left];
    reflexivity.
Qed.

Lemma py_pow2_below_or_above {libm : Libm} (a : number) :
  py_pow2 a = py_pow2 (libm := pow_below) a \/
  py_pow2 a = py_pow2 (libm := pow_above) a.
Proof.
  destruct a as [z|x]; [left; reflexivity |]. unfold py_pow2.
  destruct (float_pow2_below_or_above x) as [E|E]; rewrite E;
    [left | right]; reflexivity.
Qed.

Lemma squared_below_or_above {libm : Libm} (r : result number) :
  Spec.squared r = Spec.squared (libm := pow_below) r \/
  Spec.squared r = Spec.squared (libm := pow_above) r.
Proof.
  destruct r as [a|e]; [| left; reflexivity]. apply py_pow2_below_or_above.
Qed.

Lemma get_spent_calories_below_or_above {libm : Libm} (self : Training) :
  get_spent_calories self = get_spent_calories (libm := pow_below) self \/
  get_spent_calories self = get_spent_calories (libm := pow_above) self.
Proof.
  destruct self as [a d w|a d w h|a d w l c]; try (left; reflexivity).
  unfold get_spent_calories, SportsWalking_get_spent_calories.
  cbv beta delta [mbind attr eval] iota.
  destruct (py_mul RATIO_WLK_1 (weight (SportsWalking a d w h))) as [x1|e];
    [| left; reflexivity].
  destruct (get_mean_speed (SportsWalking a d w h)) as [s [v|e]];
    [| left; reflexivity].
  destruct (py_pow2_below_or_above v) as [E|E]; rewrite E; [left | right];
    reflexivity.
Qed.

Lemma show_training_info_below_or_above {libm : Libm} (self : Training) :
  show_training_info self = show_training_info (libm := pow_below) self \/
  show_training_info self = show_training_info (libm := pow_above) self.
Proof.
  unfold show_training_info.
  cbv beta delta [mbind attr mret] iota.
  destruct (get_distance self) as [s1 [dist|e]]; [| left; reflexivity].
  destruct (get_mean_speed s1) as [s2 [v|e]]; [| left; reflexivity].
  destruct (get_spent_calories_below_or_above s2) as [E|E]; rewrite E;
    [left | right]; reflexivity.
Qed.

Lemma main_below_or_above {libm : Libm} (training : Training)
    (out : list string) :
  main training out = main (libm := pow_below) training out \/
  main training out = main (libm := pow_above) training out.
Proof.
  unfold main.
  destruct (show_training_info_below_or_above training) as [E|E]; rewrite E;
    [left | right]; reflexivity.
Qed.

(** What [main] does on both extreme libraries it does on every
    library. *)
Lemma main_on_both (training : Training) (out : list string)
    (r : list string * result unit) :
  on_both (fun libm => main (libm := libm) training out = r) ->
  forall libm : Libm, main (libm := libm) training out = r.
Proof.
  intros [Hb Ha] libm.
  destruct (main_below_or_above (libm := libm) training out) as [E|E];
    rewrite E; assumption.
Qed.

(** What holds of [get_spent_calories] on both extreme libraries holds
    on every library. *)
Lemma on_both_get_spent_calories (self : Training)
    (P : Training * result number -> Prop) :
  on_both (fun libm => P (get_spent_calories (libm := libm) self)) ->
  forall libm : Libm, P (get_spent_calories (libm := libm) self).
Proof.
  intros [Hb Ha] libm.
  destruct (get_spent_calories_below_or_above (libm := libm) self) as [E|E];
    rewrite E; assumption.
Qed.

(** From here on the library is any. *)
Section Platform.

Context {libm : Libm}.

(** Unfolds the method combinators and splits on every intermediate
    outcome, in evaluation order. *)
Ltac run_method :=
  cbv beta delta [mbind attr eval mret bind Spec.lift2 Spec.val Spec.int
                  Spec.lit Spec.floor_divide Spec.squared
                  M_IN_KM MIN_IN_HOUR RATIO_RUN_1 RATIO_RUN_2 RATIO_WLK_1
                  RATIO_WLK_2 RATIO_SWM_1 RATIO_SWM_2] iota;
  cbn [action duration weight LEN_STEP class_name fst snd];
  repeat match goal with
         | |- context [match ?r with Ok _ => _ | Raise _ => _ end] =>
             lazymatch r with
             | context [match _ with Ok _ => _ | Raise _ => _ end] => fail
             | _ => destruct r eqn:?
             end
         end;
  cbn [fst snd].

(** ** Methods and formulas *)

Lemma get_distance_eq (self : Training) :
  get_distance self = (self, Spec.distance_km (LEN_STEP self) (action self)).
Proof.
  unfold get_distance, Spec.distance_km.
  destruct self; unfold Training_get_distance, Swimming_get_distance;
    run_method; reflexivity.
Qed.

Lemma Training_get_mean_speed_eq (self : Training) :
  LEN_STEP self = PyFloat (flt 0.65) ->
  Training_get_mean_speed self
  = (self, Spec.mean_speed_kmh (action self) (duration self)).
Proof.
  intros HL.
  unfold Training_get_mean_speed, Spec.mean_speed_kmh.
  unfold mbind at 1. rewrite get_distance_eq, HL.
  run_method; reflexivity.
Qed.

Lemma Swimming_get_mean_speed_eq (a d w l c : number) :
  get_mean_speed (Swimming a d w l c)
  = (Swimming a d w l c, Spec.swimming_mean_speed_kmh d l c).
Proof.
  unfold get_mean_speed, Swimming_get_mean_speed, Spec.swimming_mean_speed_kmh.
  run_method; reflexivity.
Qed.

Lemma Running_get_spent_calories_eq (a d w : number) :
  get_spent_calories (Running a d w)
  = (Running a d w, Spec.running_calories a d w).
Proof.
  unfold get_spent_calories, Running_get_spent_calories, Spec.running_calories.
  unfold mbind at 1. unfold get_mean_speed.
  rewrite Training_get_mean_speed_eq by reflexivity.
  run_method; reflexivity.
Qed.

Lemma SportsWalking_get_spent_calories_eq (a d w h : number) :
  get_spent_calories (SportsWalking a d w h)
  = (SportsWalking a d w h, Spec.walking_calories a d w h).
Proof.
  unfold get_spent_calories, SportsWalking_get_spent_calories,
    Spec.walking_calories.
  unfold mbind at 1 2 3. unfold attr at 1, eval at 1.
  cbn [weight]. unfold get_mean_speed.
  destruct (py_mul RATIO_WLK_1 w) as [x1|e] eqn:E1.
  - rewrite Training_get_mean_speed_eq by reflexivity.
    unfold RATIO_WLK_1 in E1. run_method; try reflexivity; congruence.
  - unfold RATIO_WLK_1 in E1. run_method; try reflexivity; congruence.
Qed.

Lemma Swimming_get_spent_calories_eq (a d w l c : number) :
  get_spent_calories (Swimming a d w l c)
  = (Swimming a d w l c, Spec.swimming_calories d w l c).
Proof.
  unfold get_spent_calories, Swimming_get_spent_calories,
    Spec.swimming_calories.
  unfold mbind at 1. rewrite Swimming_get_mean_speed_eq.
  run_method; reflexivity.
Qed.

(** C1 (amended): for every SportsWalking workout [get_spent_calories]
    returns [(0.035 * weight + (mean_speed ** 2 // height) * 0.029 * weight)
    * duration * 60] and leaves the record as it was; the quotient is a
    floor division, which tells on a walker fast enough for
    [mean_speed ** 2 >= height]; for action=9000, duration=1, weight=75,
    height=180 the result is the float 157.50000000000003, displayed as
    157.500. *)
Theorem walking_calories_floor_division :
  (forall a d w h : number,
      get_spent_calories (SportsWalking a d w h)
      = (SportsWalking a d w h, Spec.walking_calories a d w h)) /\
  get_spent_calories walking_example
  = (walking_example, Ok (PyFloat (flt 157.50000000000003))) /\
  format_3f (PyFloat (flt 157.50000000000003)) = Ok "157.500"%string /\
  Spec.floor_divide
    (Spec.squared (Spec.mean_speed_kmh (PyInt 9000) (PyInt 1)))
    (Spec.int 180) = Ok (PyFloat (S754_zero false)) /\
  Spec.floor_divide
    (Spec.squared (Spec.mean_speed_kmh (PyInt 90000) (PyInt 1)))
    (Spec.int 180) = Ok (PyFloat (flt 19)) /\
  snd (get_spent_calories fast_walking_example)
  <> Spec.walking_calories_true_division
       (PyInt 90000) (PyInt 1) (PyInt 75) (PyInt 180).
Proof.
  split; [exact SportsWalking_get_spent_calories_eq |].
  split.
  { destruct (get_spent_calories_below_or_above walking_example) as [E|E];
      rewrite E; vm_compute; reflexivity. }
  split; [vm_compute; reflexivity |].
  split.
  { destruct (squared_below_or_above
                (Spec.mean_speed_kmh (PyInt 9000) (PyInt 1))) as [E|E];
      rewrite E; vm_compute; reflexivity. }
  split.
  { destruct (squared_below_or_above
                (Spec.mean_speed_kmh (PyInt 90000) (PyInt 1))) as [E|E];
      rewrite E; vm_compute; reflexivity. }
  unfold Spec.walking_calories_true_division.
  destruct (get_spent_calories_below_or_above fast_walking_example) as [E|E];
    rewrite E;
    destruct (squared_below_or_above
                (Spec.mean_speed_kmh (PyInt 90000) (PyInt 1))) as [E'|E'];
    rewrite E'; vm_compute; discriminate.
Qed.

(** C2: for every Swimming workout [get_mean_speed] returns
    [(length_pool * count_pool / 1000) / duration], whatever the action
    count is, even one for which [get_distance] fails; for duration=1,
    length_pool=25, count_pool=40 it returns 1.0. *)
Theorem swimming_mean_speed_from_pool :
  (forall a d w l c : number,
      get_mean_speed (Swimming a d w l c)
      = (Swimming a d w l c, Spec.swimming_mean_speed_kmh d l c)) /\
  (forall a a' d w l c : number,
      snd (get_mean_speed (Swimming a d w l c))
      = snd (get_mean_speed (Swimming a' d w l c))) /\
  get_mean_speed swimming_example = (swimming_example, Ok (PyFloat (flt 1.0))) /\
  (let huge := Swimming (PyInt (10 ^ 400)) (PyInt 1) (PyInt 80)
                        (PyInt 25) (PyInt 40) in
   snd (get_distance huge) = Raise OverflowError /\
   snd (get_mean_speed huge) = Ok (PyFloat (flt 1.0))).
Proof.
  split; [exact Swimming_get_mean_speed_eq |].
  split; [intros; now rewrite !Swimming_get_mean_speed_eq |].
  repeat split; vm_compute; reflexivity.
Qed.

(** C3 (amended): for every Running workout [get_spent_calories] returns
    [(18 * mean_speed - 20) * weight / 1000 * duration * 60] and leaves
    the record as it was; for action=15000, duration=1, weight=75 that is
    [(18 * 9.75 - 20) * 75 / 1000 * 60 = 699.75]. *)
Theorem running_calories_formula :
  (forall a d w : number,
      get_spent_calories (Running a d w)
      = (Running a d w, Spec.running_calories a d w)) /\
  get_mean_speed running_example = (running_example, Ok (PyFloat (flt 9.75))) /\
  get_spent_calories running_example
  = (running_example, Ok (PyFloat (flt 699.75))).
Proof.
  split; [exact Running_get_spent_calories_eq |].
  split; vm_compute; reflexivity.
Qed.

(** C8: for every Swimming workout [get_spent_calories] returns
    [(mean_speed + 1.1) * 2 * weight], with the pool-based mean speed;
    for duration=1, weight=80, length_pool=25, count_pool=40 it returns
    336.0. *)
Theorem swimming_calories_formula :
  (forall a d w l c : number,
      get_spent_calories (Swimming a d w l c)
      = (Swimming a d w l c, Spec.swimming_calories d w l c)) /\
  get_spent_calories swimming_example
  = (swimming_example, Ok (PyFloat (flt 336.0))).
Proof.
  split; [exact Swimming_get_spent_calories_eq |].
  vm_compute; reflexivity.
Qed.

(** ** The factory *)

Lemma read_package_known (code : string) (cls : class) (data : list number) :
  getitem type_train code = Ok cls ->
  read_package code data = construct cls data.
Proof.
  intros H. unfold read_package. rewrite H. cbn [bind].
  destruct cls, data as [|a [|d [|w [|h [|c [|x r]]]]]]; reflexivity.
Qed.

Lemma getitem_unknown (code : string) :
  code <> "RUN"%string -> code <> "SWM"%string -> code <> "WLK"%string ->
  getitem type_train code = Raise KeyError.
Proof.
  intros H1 H2 H3. unfold type_train. cbn [getitem].
  destruct (String.eqb_spec "RUN" code); [congruence |].
  destruct (String.eqb_spec "SWM" code); [congruence |].
  destruct (String.eqb_spec "WLK" code); [congruence | reflexivity].
Qed.

(** C4: a code other than RUN, SWM and WLK makes [read_package] raise
    the ValueError with the message of [unknown_workout], whatever the
    data, so no object comes back; each of the three codes calls the
    constructor of its class, which binds the values in field order. *)
Theorem read_package_dispatch (workout_type : string) (data : list number) :
  (workout_type <> "RUN"%string -> workout_type <> "SWM"%string ->
   workout_type <> "WLK"%string ->
   read_package workout_type data = Raise (ValueError unknown_workout)) /\
  unknown_workout <> EmptyString /\
  read_package "RUN" data = construct cRunning data /\
  read_package "SWM" data = construct cSwimming data /\
  read_package "WLK" data = construct cSportsWalking data /\
  (forall a d w, read_package "RUN" [a; d; w] = Ok (Running a d w)) /\
  (forall a d w l c,
      read_package "SWM" [a; d; w; l; c] = Ok (Swimming a d w l c)) /\
  (forall a d w h,
      read_package "WLK" [a; d; w; h] = Ok (SportsWalking a d w h)).
Proof.
  split.
  { intros H1 H2 H3. unfold read_package.
    rewrite (getitem_unknown _ H1 H2 H3). reflexivity. }
  split; [discriminate |].
  repeat split; intros; now apply read_package_known.
Qed.

Lemma read_package_dispatch_witness :
  read_package "XYZ" [PyInt 1; PyInt 2; PyInt 3]
  = Raise (ValueError unknown_workout).
Proof.
  apply (proj1 (read_package_dispatch "XYZ" [PyInt 1; PyInt 2; PyInt 3]));
    discriminate.
Defined.

(** ** Methods leave [self] alone *)

Lemma leaves_self_mret {S A : Type} (a : A) : leaves_self (@mret S A a).
Proof. intros self; reflexivity. Qed.

Lemma leaves_self_attr {S A : Type} (f : S -> A) : leaves_self (attr f).
Proof. intros self; reflexivity. Qed.

Lemma leaves_self_eval {S A : Type} (r : result A) : leaves_self (@eval S A r).
Proof. intros self; reflexivity. Qed.

Lemma leaves_self_mbind {S A B : Type} (m : method S A) (k : A -> method S B) :
  leaves_self m -> (forall a, leaves_self (k a)) -> leaves_self (mbind m k).
Proof.
  intros Hm Hk self. unfold mbind.
  specialize (Hm self). destruct (m self) as [self' [a|e]]; cbn [fst] in *.
  - subst self'. apply Hk.
  - assumption.
Qed.

Create HintDb pure_method.
#[local] Hint Resolve leaves_self_mret leaves_self_attr leaves_self_eval
  : pure_method.

Ltac leaves_self :=
  repeat first
    [ apply leaves_self_mbind; [ | intros ? ]
    | solve [ auto with pure_method ] ].

Lemma get_distance_leaves_self : leaves_self get_distance.
Proof.
  intros self. unfold get_distance. destruct self.
  - apply (ltac:(unfold Training_get_distance; leaves_self)
           : leaves_self Training_get_distance).
  - apply (ltac:(unfold Training_get_distance; leaves_self)
           : leaves_self Training_get_distance).
  - apply (ltac:(unfold Swimming_get_distance; leaves_self)
           : leaves_self Swimming_get_distance).
Qed.

#[local] Hint Resolve get_distance_leaves_self : pure_method.

Lemma get_mean_speed_leaves_self : leaves_self get_mean_speed.
Proof.
  intros self. unfold get_mean_speed. destruct self.
  - apply (ltac:(unfold Training_get_mean_speed; leaves_self)
           : leaves_self Training_get_mean_speed).
  - apply (ltac:(unfold Training_get_mean_speed; leaves_self)
           : leaves_self Training_get_mean_speed).
  - apply (ltac:(unfold Swimming_get_mean_speed; leaves_self)
           : leaves_self (Swimming_get_mean_speed length_pool count_pool)).
Qed.

#[local] Hint Resolve get_mean_speed_leaves_self : pure_method.

Lemma get_spent_calories_leaves_self : leaves_self get_spent_calories.
Proof.
  intros self. unfold get_spent_calories. destruct self.
  - apply (ltac:(unfold Running_get_spent_calories; leaves_self)
           : leaves_self Running_get_spent_calories).
  - apply (ltac:(unfold SportsWalking_get_spent_calories; leaves_self)
           : leaves_self (SportsWalking_get_spent_calories height)).
  - apply (ltac:(unfold Swimming_get_spent_calories; leaves_self)
           : leaves_self Swimming_get_spent_calories).
Qed.

#[local] Hint Resolve get_spent_calories_leaves_self : pure_method.

Lemma show_training_info_leaves_self : leaves_self show_training_info.
Proof. unfold show_training_info. leaves_self. Qed.

Lemma get_message_leaves_self : leaves_self InfoMessage.get_message.
Proof. unfold InfoMessage.get_message. leaves_self. Qed.

Lemma leaves_self_same_twice {S A : Type} (m : method S A) (self : S) :
  leaves_self m -> same_twice m self.
Proof.
  intros H. unfold same_twice.
  pose proof (H self) as H1. destruct (m self) as [self1 r1] eqn:E1.
  cbn [fst] in H1. subst self1. rewrite E1. auto.
Qed.

(** C9: on every workout record, calling [get_distance],
    [get_mean_speed] or [get_spent_calories] twice gives the same outcome
    both times (the same value, or the same exception), and the record is
    the same object state after each call. *)
Theorem metric_operations_idempotent (self : Training) :
  same_twice get_distance self /\
  same_twice get_mean_speed self /\
  same_twice get_spent_calories self.
Proof.
  repeat split; apply leaves_self_same_twice; auto with pure_method.
Qed.

(** ** The summary line *)

Lemma read_package_class (workout_type : string) (data : list number)
    (training : Training) :
  read_package workout_type data = Ok training ->
  (workout_type = "RUN"%string /\ class_name training = "Running"%string) \/
  (workout_type = "SWM"%string /\ class_name training = "Swimming"%string) \/
  (workout_type = "WLK"%string /\ class_name training = "SportsWalking"%string).
Proof.
  unfold read_package, type_train. cbn [getitem].
  destruct (String.eqb_spec "RUN" workout_type) as [<-|_].
  { cbn [bind]. intros H. left. split; [reflexivity |].
    destruct data as [|a [|d [|w [|h r]]]]; cbn in H; try discriminate.
    now injection H as <-. }
  destruct (String.eqb_spec "SWM" workout_type) as [<-|_].
  { cbn [bind]. intros H. right. left. split; [reflexivity |].
    destruct data as [|a [|d [|w [|h [|c [|x r]]]]]]; cbn in H; try discriminate.
    now injection H as <-. }
  destruct (String.eqb_spec "WLK" workout_type) as [<-|_].
  { cbn [bind]. intros H. right. right. split; [reflexivity |].
    destruct data as [|a [|d [|w [|h [|c r]]]]]; cbn in H; try discriminate.
    now injection H as <-. }
  cbn. discriminate.
Qed.

Lemma show_training_info_type (training : Training) (info : InfoMessage.t) :
  snd (show_training_info training) = Ok info ->
  InfoMessage.training_type info = class_name training.
Proof.
  unfold show_training_info, mbind at 1 2, attr.
  pose proof (get_distance_leaves_self training) as H1.
  unfold mbind at 1.
  destruct (get_distance training) as [s1 [dist|e]]; cbn [fst snd] in *;
    [subst s1 | discriminate].
  pose proof (get_mean_speed_leaves_self training) as H2.
  unfold mbind at 1.
  destruct (get_mean_speed training) as [s2 [v|e]]; cbn [fst snd] in *;
    [subst s2 | discriminate].
  unfold mbind.
  destruct (get_spent_calories training) as [s3 [c|e]]; cbn [fst snd];
    [| discriminate].
  unfold mret. cbn [snd]. intros H. now injection H as <-.
Qed.

Lemma get_message_prefix (info : InfoMessage.t) (line : string) :
  snd (InfoMessage.get_message info) = Ok line ->
  exists rest : string,
    line = ("Тип тренировки: " ++ InfoMessage.training_type info ++ "; "
            ++ rest)%string.
Proof.
  unfold InfoMessage.get_message. run_method; try discriminate.
  intros H. injection H as <-. eexists. reflexivity.
Qed.

(** C10: when [read_package] builds a workout from a code, the summary
    of that workout is labelled with the name of its class, Running,
    Swimming or SportsWalking, and not with the code; the line of a WLK
    workout begins with the label SportsWalking. *)
Theorem summary_label_is_class_name (workout_type : string)
    (data : list number) (training : Training) (info : InfoMessage.t)
    (line : string) :
  read_package workout_type data = Ok training ->
  snd (show_training_info training) = Ok info ->
  snd (InfoMessage.get_message info) = Ok line ->
  getitem [("RUN", "Running"); ("SWM", "Swimming"); ("WLK", "SportsWalking")]%string
          workout_type = Ok (InfoMessage.training_type info) /\
  InfoMessage.training_type info = class_name training /\
  InfoMessage.training_type info <> workout_type /\
  (exists rest : string,
      line = ("Тип тренировки: " ++ class_name training ++ "; " ++ rest)%string) /\
  (workout_type = "WLK"%string ->
   exists rest : string,
     line = ("Тип тренировки: SportsWalking; " ++ rest)%string).
Proof.
  intros Hr Hs Hm.
  pose proof (show_training_info_type _ _ Hs) as Ht.
  destruct (get_message_prefix _ _ Hm) as [rest Hl].
  rewrite Ht in *.
  destruct (read_package_class _ _ _ Hr) as [[-> Hc]|[[-> Hc]|[-> Hc]]];
    rewrite Hc in *;
    (split; [reflexivity |]); (split; [reflexivity |]);
    (split; [discriminate |]); (split; [now exists rest |]);
    intros Hw; try discriminate Hw; now exists rest.
Qed.

(** What the driver prints for its three packages. *)
Lemma driver_output :
  run packages []
  = (["Тип тренировки: Swimming; Длительность: 1.000 ч.; Дистанция: 0.994 км; Ср. скорость: 1.000 км/ч; Потрачено ккал: 336.000.";
      "Тип тренировки: Running; Длительность: 1.000 ч.; Дистанция: 9.750 км; Ср. скорость: 9.750 км/ч; Потрачено ккал: 699.750.";
      "Тип тренировки: SportsWalking; Длительность: 1.000 ч.; Дистанция: 5.850 км; Ср. скорость: 5.850 км/ч; Потрачено ккал: 157.500."]%string,
     Ok tt).
Proof.
  unfold packages. cbn [run].
  change (read_package "SWM" _) with (Ok swimming_example).
  change (read_package "RUN" _) with (Ok running_example).
  change (read_package "WLK" _) with (Ok walking_example).
  cbv beta iota.
  match goal with
  | |- _ = ([?l1; ?l2; ?l3], _) =>
      rewrite (main_on_both swimming_example [] ([l1], Ok tt))
        by (split; vm_compute; reflexivity);
      cbv beta iota;
      rewrite (main_on_both running_example [l1] ([l1; l2], Ok tt))
        by (split; vm_compute; reflexivity);
      cbv beta iota;
      rewrite (main_on_both walking_example [l1; l2] ([l1; l2; l3], Ok tt))
        by (split; vm_compute; reflexivity)
  end.
  reflexivity.
Qed.

(** ** The summary formatter *)

Lemma round_half_even_nearest (num den : Z) :
  0 < den ->
  2 * Z.abs (num - round_half_even num den * den) <= den.
Proof.
  intros Hd. unfold round_half_even.
  pose proof (Z.div_mod num den ltac:(lia)) as Hq.
  pose proof (Z.mod_pos_bound num den Hd) as Hr.
  set (q := num / den) in *. set (r := num mod den) in *.
  destruct (Z.compare_spec (2 * r) den); [destruct (Z.even q) | |]; lia.
Qed.

(** What is shown is the thousandth nearest to the value. *)
Lemma thousandths_nearest (m : positive) (e : Z) :
  if 0 <=? e then thousandths m e = Zpos m * 1000 * 2 ^ e
  else 2 * Z.abs (Zpos m * 1000 - thousandths m e * 2 ^ (- e)) <= 2 ^ (- e).
Proof.
  unfold thousandths. destruct (Z.leb_spec 0 e) as [He|He].
  - now rewrite Z.shiftl_mul_pow2.
  - rewrite Z.shiftl_1_l. apply round_half_even_nearest.
    apply Z.pow_pos_nonneg; lia.
Qed.

Lemma is_digit_digit_char (d : Z) :
  0 <= d <= 9 -> is_digit (digit_char d) = true.
Proof.
  intros H.
  assert (C : d = 0 \/ d = 1 \/ d = 2 \/ d = 3 \/ d = 4 \/ d = 5 \/ d = 6
              \/ d = 7 \/ d = 8 \/ d = 9) by lia.
  destruct C as [->|[->|[->|[->|[->|[->|[->|[->|[->| ->]]]]]]]]]; reflexivity.
Qed.

Lemma all_digits_string_of_uint (u : Decimal.uint) :
  all_digits (NilEmpty.string_of_uint u) = true.
Proof. induction u; cbn; auto. Qed.

Lemma string_of_uint_nonempty (u : Decimal.uint) :
  u <> Decimal.Nil -> NilEmpty.string_of_uint u <> EmptyString.
Proof. destruct u; cbn; congruence. Qed.

Lemma decimal_digits (n : Z) :
  decimal n <> EmptyString /\ all_digits (decimal n) = true.
Proof.
  unfold decimal. split; [| apply all_digits_string_of_uint].
  apply string_of_uint_nonempty.
  destruct (Z.to_N n) as [|p]; cbn [N.to_uint].
  - discriminate.
  - apply DecimalPos.Unsigned.to_uint_nonnil.
Qed.

Lemma fixed3_three_decimals (s : bool) (n : Z) :
  three_decimals (sign_string s ++ fixed3 n).
Proof.
  destruct (decimal_digits (n / 1000)) as [Hne Hd].
  pose proof (Z.mod_pos_bound n 1000 ltac:(lia)) as Hf.
  exists s, (decimal (n / 1000)).
  eexists. split; [unfold fixed3; reflexivity |].
  repeat split; try assumption.
  assert (H1 : 0 <= n mod 1000 / 100 <= 9).
  { split; [apply Z.div_pos; lia |].
    assert (n mod 1000 / 100 < 10) by (apply Z.div_lt_upper_bound; lia). lia. }
  pose proof (Z.mod_pos_bound (n mod 1000 / 10) 10 ltac:(lia)) as H2.
  pose proof (Z.mod_pos_bound (n mod 1000) 10 ltac:(lia)) as H3.
  cbn [all_digits].
  rewrite !is_digit_digit_char by lia. reflexivity.
Qed.

Lemma float_format_3f_finite (x : spec_float) :
  F64.is_finite x = true -> three_decimals (float_format_3f x).
Proof.
  destruct x as [s|s| |s m e]; cbn [F64.is_finite]; try discriminate;
    intros _; apply fixed3_three_decimals.
Qed.

Lemma float_format_3f_not_finite (x : spec_float) :
  F64.is_finite x = false ->
  float_format_3f x = "inf"%string \/ float_format_3f x = "-inf"%string \/
  float_format_3f x = "nan"%string.
Proof.
  destruct x as [s|[]| |s m e]; cbn [F64.is_finite]; try discriminate; auto.
Qed.

Lemma no_three_decimals_in_inf :
  ~ three_decimals "inf" /\ ~ three_decimals "-inf" /\ ~ three_decimals "nan".
Proof.
  repeat split; intros (sgn & ip & fr & H & Hne & Hd & _);
    destruct sgn, ip as [|c ip]; try congruence; cbn in H;
    try discriminate H; injection H as <- H; discriminate Hd.
Qed.

Lemma get_message_eq (info : InfoMessage.t) (du di sp ca : string) :
  format_3f (InfoMessage.duration info) = Ok du ->
  format_3f (InfoMessage.distance info) = Ok di ->
  format_3f (InfoMessage.speed info) = Ok sp ->
  format_3f (InfoMessage.calories info) = Ok ca ->
  InfoMessage.get_message info
  = (info,
     Ok ("Тип тренировки: " ++ InfoMessage.training_type info ++ "; "
         ++ "Длительность: " ++ du ++ " ч.; "
         ++ "Дистанция: " ++ di ++ " км; "
         ++ "Ср. скорость: " ++ sp ++ " км/ч; "
         ++ "Потрачено ккал: " ++ ca ++ ".")%string).
Proof.
  intros H1 H2 H3 H4. unfold InfoMessage.get_message, mbind, attr, eval, mret.
  now rewrite H1, H2, H3, H4.
Qed.

(** C5 (amended): for every kind label and four metric values within
    the range of a float, [get_message] returns exactly the template
    filled with the label and the four values under [.3f], and leaves
    the message object as it was; a finite value is rendered as an
    optional sign, digits, a point and exactly three digits, the nearest
    thousandth of its magnitude (9.75 as 9.750); an infinity or a NaN is
    rendered as inf, -inf or nan. *)
Theorem get_message_three_decimals (info : InfoMessage.t)
    (du di sp ca : spec_float) :
  as_float (InfoMessage.duration info) = Ok du ->
  as_float (InfoMessage.distance info) = Ok di ->
  as_float (InfoMessage.speed info) = Ok sp ->
  as_float (InfoMessage.calories info) = Ok ca ->
  InfoMessage.get_message info
  = (info,
     Ok ("Тип тренировки: " ++ InfoMessage.training_type info ++ "; "
         ++ "Длительность: " ++ float_format_3f du ++ " ч.; "
         ++ "Дистанция: " ++ float_format_3f di ++ " км; "
         ++ "Ср. скорость: " ++ float_format_3f sp ++ " км/ч; "
         ++ "Потрачено ккал: " ++ float_format_3f ca ++ ".")%string) /\
  (forall x : spec_float,
      F64.is_finite x = true -> three_decimals (float_format_3f x)) /\
  (forall (s : bool) (m : positive) (e : Z),
      float_format_3f (S754_finite s m e)
      = (sign_string s ++ fixed3 (thousandths m e))%string /\
      if 0 <=? e then thousandths m e = Zpos m * 1000 * 2 ^ e
      else 2 * Z.abs (Zpos m * 1000 - thousandths m e * 2 ^ (- e))
           <= 2 ^ (- e)) /\
  (forall x : spec_float,
      F64.is_finite x = false ->
      float_format_3f x = "inf"%string \/ float_format_3f x = "-inf"%string \/
      float_format_3f x = "nan"%string) /\
  float_format_3f (flt 9.75) = "9.750"%string.
Proof.
  intros H1 H2 H3 H4. split.
  { apply get_message_eq; unfold format_3f;
      rewrite ?H1, ?H2, ?H3, ?H4; reflexivity. }
  split; [exact float_format_3f_finite |].
  split; [intros s m e; split; [reflexivity | apply thousandths_nearest] |].
  split; [exact float_format_3f_not_finite |].
  vm_compute; reflexivity.
Qed.

Lemma get_message_three_decimals_witness :
  let info := InfoMessage.Build "Running" (PyInt 1) (PyFloat (flt 9.75))
                (PyFloat (flt 9.75)) (PyFloat (flt 699.75)) in
  InfoMessage.get_message info
  = (info,
     Ok ("Тип тренировки: Running; Длительность: 1.000 ч.; "
         ++ "Дистанция: 9.750 км; Ср. скорость: 9.750 км/ч; "
         ++ "Потрачено ккал: 699.750.")%string).
Proof.
  intros info.
  refine (eq_trans
            (proj1 (get_message_three_decimals info
                      (flt 1) (flt 9.75) (flt 9.75) (flt 699.75) _ _ _ _)) _).
  - vm_compute; reflexivity.
  - reflexivity.
  - reflexivity.
  - reflexivity.
  - vm_compute; reflexivity.
Defined.

(** ** Facts on rounding to binary floats *)

Section Rounding.

Variables prec emax : Z.
Hypothesis prec_pos : 0 < prec.

Lemma iter_pos_nat {A : Type} (f : A -> A) (n : positive) (x : A) :
  iter_pos f n x = Nat.iter (Pos.to_nat n) f x.
Proof.
  revert x. induction n as [n IH|n IH|]; intros x; cbn [iter_pos].
  - rewrite !IH, Pos2Nat.inj_xI, <- Nat.iter_add.
    replace (Pos.to_nat n + Pos.to_nat n)%nat with (2 * Pos.to_nat n)%nat by lia.
    now rewrite <- Nat.iter_succ_r.
  - rewrite !IH, Pos2Nat.inj_xO, <- Nat.iter_add.
    f_equal. lia.
  - reflexivity.
Qed.

Lemma shr_1_nonneg (mrs : shr_record) :
  0 <= shr_m mrs -> 0 <= shr_m (shr_1 mrs).
Proof.
  destruct mrs as [m r s]. cbn [shr_m shr_1].
  destruct m as [|[p|p|]|[p|p|]]; cbn [shr_m]; lia.
Qed.

Lemma shr_nonneg (mrs : shr_record) (e n : Z) :
  0 <= shr_m mrs -> 0 <= shr_m (fst (shr mrs e n)).
Proof.
  intros H. unfold shr. destruct n as [|q|q]; cbn [fst]; try assumption.
  rewrite iter_pos_nat. induction (Pos.to_nat q) as [|k IH]; cbn [Nat.iter].
  - assumption.
  - now apply shr_1_nonneg.
Qed.

Lemma shr_m_of_loc (m : Z) (l : location) :
  shr_m (shr_record_of_loc m l) = m.
Proof. destruct l as [|[]]; reflexivity. Qed.

Lemma shr_fexp_nonneg (m e : Z) (l : location) :
  0 <= m -> 0 <= shr_m (fst (shr_fexp prec emax m e l)).
Proof.
  intros H. unfold shr_fexp. apply shr_nonneg. now rewrite shr_m_of_loc.
Qed.

Lemma round_nearest_even_ge (m : Z) (l : location) :
  m <= round_nearest_even m l <= m + 1.
Proof.
  unfold round_nearest_even. destruct l as [|[]]; try lia.
  destruct (Z.even m); lia.
Qed.

(** Rounding a non-negative mantissa keeps the sign it is given and
    never makes a NaN. *)
Lemma binary_round_aux_sign (s : bool) (mx ex : Z) (lx : location) :
  0 <= mx ->
  match binary_round_aux prec emax s mx ex lx with
  | S754_zero s' | S754_infinity s' | S754_finite s' _ _ => s' = s
  | S754_nan => False
  end.
Proof.
  intros H. unfold binary_round_aux.
  pose proof (shr_fexp_nonneg mx ex lx H) as H1.
  destruct (shr_fexp prec emax mx ex lx) as [mrs' e'] eqn:E1. cbn [fst] in H1.
  pose proof (round_nearest_even_ge (shr_m mrs') (loc_of_shr_record mrs')) as H2.
  set (m1 := round_nearest_even (shr_m mrs') (loc_of_shr_record mrs')) in *.
  assert (H3 : 0 <= m1) by lia.
  pose proof (shr_fexp_nonneg m1 e' loc_Exact H3) as H4.
  destruct (shr_fexp prec emax m1 e' loc_Exact) as [mrs'' e''] eqn:E2.
  cbn [fst] in H4.
  destruct (shr_m mrs'') as [|p|p]; [reflexivity | | lia].
  destruct (e'' <=? emax - prec); reflexivity.
Qed.

(** *** A value above the smallest subnormal does not round to zero *)

Lemma shr_1_digits (mrs : shr_record) (p : positive) :
  shr_m mrs = Zpos p -> 1 < Zpos (digits2_pos p) ->
  exists p', shr_m (shr_1 mrs) = Zpos p' /\
             Zpos (digits2_pos p') = Zpos (digits2_pos p) - 1.
Proof.
  destruct mrs as [m r s]. cbn [shr_m]. intros -> H.
  destruct p as [p|p|]; cbn [shr_1 shr_m digits2_pos] in *.
  - exists p. split; [reflexivity | lia].
  - exists p. split; [reflexivity | lia].
  - lia.
Qed.

Lemma iter_shr_1_digits (k : nat) (mrs : shr_record) (p : positive) :
  shr_m mrs = Zpos p -> Z.of_nat k < Zpos (digits2_pos p) ->
  exists p', shr_m (Nat.iter k shr_1 mrs) = Zpos p' /\
             Zpos (digits2_pos p') = Zpos (digits2_pos p) - Z.of_nat k.
Proof.
  intros Hm. induction k as [|k IH]; intros Hk; cbn [Nat.iter].
  - exists p. split; [assumption | lia].
  - destruct IH as (p1 & H1 & H2); [lia |].
    destruct (shr_1_digits _ p1 H1) as (p2 & H3 & H4); [lia |].
    exists p2. split; [assumption | lia].
Qed.

Lemma shr_fexp_positive (p : positive) (e : Z) (l : location) :
  SpecFloat.emin prec emax < Zpos (digits2_pos p) + e ->
  exists mrs e' p',
    shr_fexp prec emax (Zpos p) e l = (mrs, e') /\
    shr_m mrs = Zpos p' /\
    Zpos (digits2_pos p') + e' = Zpos (digits2_pos p) + e.
Proof.
  intros H. unfold shr_fexp, shr. cbn [Zdigits2].
  set (n := fexp prec emax (Zpos (digits2_pos p) + e) - e).
  assert (Hn : n < Zpos (digits2_pos p)) by (unfold n, fexp; lia).
  destruct n as [|q|q] eqn:En.
  - exists (shr_record_of_loc (Zpos p) l), e, p.
    now rewrite shr_m_of_loc.
  - destruct (iter_shr_1_digits (Pos.to_nat q) (shr_record_of_loc (Zpos p) l) p)
      as (p' & H1 & H2).
    + apply shr_m_of_loc.
    + rewrite positive_nat_Z. assumption.
    + rewrite positive_nat_Z in H2.
      exists (iter_pos shr_1 q (shr_record_of_loc (Zpos p) l)), (e + Zpos q), p'.
      rewrite iter_pos_nat. repeat split; [assumption | lia].
  - exists (shr_record_of_loc (Zpos p) l), e, p.
    now rewrite shr_m_of_loc.
Qed.

Lemma digits2_pos_succ (p : positive) :
  Zpos (digits2_pos p) <= Zpos (digits2_pos (Pos.succ p)).
Proof.
  induction p as [p IH|p IH|]; cbn [Pos.succ digits2_pos]; lia.
Qed.

Lemma round_nearest_even_positive (p : positive) (l : location) :
  exists p1, round_nearest_even (Zpos p) l = Zpos p1 /\
             Zpos (digits2_pos p) <= Zpos (digits2_pos p1).
Proof.
  pose proof (digits2_pos_succ p) as Hs.
  assert (Hp : Zpos p + 1 = Zpos (Pos.succ p)) by lia.
  unfold round_nearest_even. destruct l as [|[]].
  - exists p. split; [reflexivity | lia].
  - destruct (Z.even (Zpos p)).
    + exists p. split; [reflexivity | lia].
    + exists (Pos.succ p). split; assumption.
  - exists p. split; [reflexivity | lia].
  - exists (Pos.succ p). split; assumption.
Qed.

Lemma binary_round_aux_nonzero (s : bool) (p : positive) (e : Z) (l : location) :
  SpecFloat.emin prec emax < Zpos (digits2_pos p) + e ->
  match binary_round_aux prec emax s (Zpos p) e l with
  | S754_infinity s' | S754_finite s' _ _ => s' = s
  | _ => False
  end.
Proof.
  intros H. unfold binary_round_aux.
  destruct (shr_fexp_positive p e l H) as (mrs' & e' & p' & -> & Hm & Hd).
  rewrite Hm.
  destruct (round_nearest_even_positive p' (loc_of_shr_record mrs'))
    as (p1 & -> & Hd1).
  destruct (shr_fexp_positive p1 e' loc_Exact) as (mrs'' & e'' & p'' & -> & Hm' & _);
    [lia |].
  rewrite Hm'. destruct (e'' <=? emax - prec); reflexivity.
Qed.

Lemma digits2_pos_iter_xO (p d : positive) :
  Zpos (digits2_pos (Pos.iter xO p d)) = Zpos (digits2_pos p) + Zpos d.
Proof.
  induction d as [|d IH] using Pos.peano_ind.
  - cbn. lia.
  - rewrite Pos.iter_succ. cbn [digits2_pos]. lia.
Qed.

Lemma binary_round_nonzero (s : bool) (p : positive) (e : Z) :
  SpecFloat.emin prec emax < Zpos (digits2_pos p) + e ->
  match binary_round prec emax s p e with
  | S754_infinity s' | S754_finite s' _ _ => s' = s
  | _ => False
  end.
Proof.
  intros H. unfold binary_round, shl_align.
  destruct (fexp prec emax (Zpos (digits2_pos p) + e) - e) as [|d|d] eqn:Ed.
  - now apply binary_round_aux_nonzero.
  - now apply binary_round_aux_nonzero.
  - apply binary_round_aux_nonzero. rewrite digits2_pos_iter_xO. lia.
Qed.

End Rounding.

(** ** Facts on binary64 arithmetic *)

Lemma emin64 : SpecFloat.emin prec emax = -1074.
Proof. reflexivity. Qed.

Lemma prec64_pos : 0 < prec.
Proof. reflexivity. Qed.

(** The class of [x] when [0 <= x]. *)
Lemma nonneg_cases (x : spec_float) :
  F64.nonneg x = true <->
  match x with
  | S754_zero _ => True
  | S754_infinity s | S754_finite s _ _ => s = false
  | S754_nan => False
  end.
Proof.
  destruct x as [s|[]| |[] m e]; cbn; intuition congruence.
Qed.

Lemma round_aux_nonneg (mx ex : Z) (lx : location) :
  0 <= mx -> F64.nonneg (binary_round_aux prec emax false mx ex lx) = true.
Proof.
  intros H. apply nonneg_cases.
  pose proof (binary_round_aux_sign prec emax false mx ex lx H) as Hs.
  destruct (binary_round_aux prec emax false mx ex lx); auto.
Qed.

Lemma fmul_nonneg (x y : spec_float) :
  F64.nonneg x = true -> F64.nonneg y = true ->
  F64.is_finite x = true -> F64.is_finite y = true ->
  F64.nonneg (F64.fmul x y) = true.
Proof.
  intros Hx Hy Fx Fy. apply nonneg_cases in Hx, Hy.
  destruct x as [sx|sx| |sx mx ex], y as [sy|sy| |sy my ey];
    cbn [F64.is_finite] in Fx, Fy; try discriminate;
    try (apply nonneg_cases; exact I).
  subst sx sy. unfold F64.fmul, SFmul. cbn [xorb].
  now apply round_aux_nonneg.
Qed.

Lemma SFdiv_core_binary_nonneg (m1 e1 m2 e2 : Z) :
  0 <= m1 -> 0 < m2 ->
  0 <= fst (fst (SFdiv_core_binary prec emax m1 e1 m2 e2)).
Proof.
  intros H1 H2. unfold SFdiv_core_binary.
  set (s := e1 - e2 - _).
  set (m' := match s with Z0 => m1 | Zpos _ => Z.shiftl m1 s | Zneg _ => 0 end).
  assert (Hm : 0 <= m').
  { unfold m'. destruct s; [assumption | now apply Z.shiftl_nonneg | lia]. }
  pose proof (Z.div_pos m' m2 Hm H2) as Hq. unfold Z.div in Hq.
  destruct (Z.div_eucl m' m2) as [q r]. exact Hq.
Qed.

Lemma fdiv_nonneg (x : spec_float) (m : positive) (e : Z) :
  F64.nonneg x = true ->
  F64.nonneg (F64.fdiv x (S754_finite false m e)) = true.
Proof.
  intros Hx. apply nonneg_cases in Hx.
  destruct x as [sx|sx| |sx mx ex]; try contradiction.
  - apply nonneg_cases. exact I.
  - subst sx. reflexivity.
  - subst sx. unfold F64.fdiv, SFdiv. cbn [xorb].
    pose proof (SFdiv_core_binary_nonneg (Zpos mx) ex (Zpos m) e) as Hq.
    destruct (SFdiv_core_binary prec emax (Zpos mx) ex (Zpos m) e)
      as [[mz ez] lz].
    cbn [fst] in Hq. apply round_aux_nonneg, Hq; lia.
Qed.

(** An int that is not zero converts to a float that is not zero and
    has its sign. *)
Lemma int_to_float_cases (z : Z) (f : spec_float) :
  int_to_float z = Ok f ->
  (z = 0 /\ f = S754_zero false) \/
  (z <> 0 /\ exists m e, f = S754_finite (z <? 0) m e).
Proof.
  unfold int_to_float, F64.of_Z, binary_normalize.
  destruct z as [|p|p].
  - intros H. left. split; [reflexivity | congruence].
  - pose proof (binary_round_nonzero prec emax prec64_pos false p 0) as Hr.
    rewrite emin64 in Hr.
    destruct (binary_round prec emax false p 0) as [s|s| |s m e];
      intros H; try discriminate; try (exfalso; apply Hr; lia).
    right. split; [lia |]. exists m, e.
    injection H as <-. rewrite Hr by lia. reflexivity.
  - pose proof (binary_round_nonzero prec emax prec64_pos true p 0) as Hr.
    rewrite emin64 in Hr.
    destruct (binary_round prec emax true p 0) as [s|s| |s m e];
      intros H; try discriminate; try (exfalso; apply Hr; lia).
    right. split; [lia |]. exists m, e.
    injection H as <-. rewrite Hr by lia. reflexivity.
Qed.

Lemma as_float_is_zero (n : number) (f : spec_float) :
  as_float n = Ok f -> F64.is_zero f = is_zero_number n.
Proof.
  destruct n as [z|x]; cbn [as_float is_zero_number].
  - intros H. destruct (int_to_float_cases z f H) as [[-> ->]|[Hz (m & e & ->)]].
    + reflexivity.
    + cbn. symmetry. now apply Z.eqb_neq.
  - intros H. now injection H as <-.
Qed.

Lemma positive_finite_as_float (n : number) :
  positive_finite n = true ->
  exists m e, as_float n = Ok (S754_finite false m e).
Proof.
  destruct n as [z|[s|s| |[] m e]]; cbn [positive_finite as_float];
    try discriminate.
  - intros H. apply andb_true_iff in H as [Hz Hok].
    apply Z.ltb_lt in Hz.
    destruct (int_to_float z) as [f|] eqn:E; [| discriminate].
    destruct (int_to_float_cases z f E) as [[-> _]|[_ (m & e & ->)]]; [lia |].
    exists m, e. replace (z <? 0) with false; [reflexivity |].
    symmetry. apply Z.ltb_ge. lia.
  - intros _. now exists m, e.
Qed.

Lemma nonneg_finite_as_float (n : number) :
  nonneg_finite n = true ->
  exists f, as_float n = Ok f /\
            F64.nonneg f = true /\ F64.is_finite f = true.
Proof.
  destruct n as [z|f]; cbn [nonneg_finite as_float]; intros H;
    apply andb_true_iff in H as [H1 H2].
  - apply Z.leb_le in H1.
    destruct (int_to_float z) as [f|] eqn:E; [| discriminate].
    exists f. split; [reflexivity |].
    destruct (int_to_float_cases z f E) as [[-> ->]|[_ (m & e & ->)]].
    + split; reflexivity.
    + replace (z <? 0) with false; [split; reflexivity |].
      symmetry. apply Z.ltb_ge. lia.
  - exists f. auto.
Qed.

(** ** Signs of distance and speed *)

Lemma py_mul_float_r (a : number) (l : spec_float) :
  py_mul a (PyFloat l)
  = (x <- as_float a ;; Ok (PyFloat (F64.fmul x l)))%py.
Proof. destruct a; reflexivity. Qed.

Lemma py_mul_float_l (x : spec_float) (b : number) :
  py_mul (PyFloat x) b
  = (y <- as_float b ;; Ok (PyFloat (F64.fmul x y)))%py.
Proof. destruct b; reflexivity. Qed.

Lemma py_truediv_float_l (x : spec_float) (b : number) :
  py_truediv (PyFloat x) b
  = (y <- as_float b ;; f <- float_div x y ;; Ok (PyFloat f))%py.
Proof. destruct b; reflexivity. Qed.

Lemma as_float_1000 :
  exists m e, as_float (PyInt 1000) = Ok (S754_finite false m e).
Proof. do 2 eexists. vm_compute. reflexivity. Qed.

Lemma div_1000_nonneg (x : spec_float) :
  F64.nonneg x = true ->
  exists y, py_truediv (PyFloat x) (PyInt 1000) = Ok (PyFloat y) /\
            F64.nonneg y = true.
Proof.
  intros Hx. rewrite py_truediv_float_l.
  destruct as_float_1000 as (m & e & ->). cbn [bind float_div F64.is_zero].
  eexists. split; [reflexivity |]. now apply fdiv_nonneg.
Qed.

Lemma div_positive_nonneg (x : spec_float) (d : number) :
  F64.nonneg x = true -> positive_finite d = true ->
  exists y, py_truediv (PyFloat x) d = Ok (PyFloat y) /\
            F64.nonneg y = true.
Proof.
  intros Hx Hd. rewrite py_truediv_float_l.
  destruct (positive_finite_as_float d Hd) as (m & e & ->).
  cbn [bind float_div F64.is_zero].
  eexists. split; [reflexivity |]. now apply fdiv_nonneg.
Qed.

Lemma distance_km_nonneg (l : spec_float) (a : number) :
  F64.nonneg l = true -> F64.is_finite l = true ->
  positive_finite a = true ->
  exists dist, Spec.distance_km (PyFloat l) a = Ok (PyFloat dist) /\
               F64.nonneg dist = true.
Proof.
  intros Hl Fl Ha.
  destruct (positive_finite_as_float a Ha) as (m & e & Ea).
  unfold Spec.distance_km, Spec.lift2, Spec.val, Spec.int. cbn [bind].
  rewrite py_mul_float_r, Ea. cbn [bind].
  apply div_1000_nonneg, fmul_nonneg; auto.
Qed.

Lemma LEN_STEP_cases (self : Training) :
  exists l, LEN_STEP self = PyFloat l /\
            F64.nonneg l = true /\ F64.is_finite l = true.
Proof. destruct self; eexists; repeat split. Qed.

Lemma int_true_divide_nonneg (p : Z) (f : spec_float) :
  0 <= p -> int_true_divide p 1000 = Ok f -> F64.nonneg f = true.
Proof.
  intros Hp. unfold int_true_divide. cbn [Z.eqb].
  destruct (Z.eqb_spec p 0) as [->|Hz].
  - intros H. now injection H as <-.
  - pose proof (SFdiv_core_binary_nonneg (Z.abs p) 0 (Z.abs 1000) 0) as Hq.
    destruct (SFdiv_core_binary prec emax (Z.abs p) 0 (Z.abs 1000) 0)
      as [[q e] l].
    cbn [fst] in Hq.
    replace (p <? 0) with false by (symmetry; apply Z.ltb_ge; lia).
    cbn [Z.ltb Z.compare xorb].
    pose proof (round_aux_nonneg q e l) as Hr.
    destruct (binary_round_aux prec emax false q e l);
      intros H; try discriminate; injection H as <-; apply Hr, Hq; lia.
Qed.

Lemma pool_km_nonneg (l c : number) :
  nonneg_finite l = true -> nonneg_finite c = true -> pool_fits l c = true ->
  exists y, (x <- py_mul l c ;; py_truediv x (PyInt 1000))%py = Ok (PyFloat y) /\
            F64.nonneg y = true.
Proof.
  intros Hl Hc Hf.
  destruct (nonneg_finite_as_float l Hl) as (fl & El & Nl & Fl).
  destruct (nonneg_finite_as_float c Hc) as (fc & Ec & Nc & Fc).
  destruct l as [zl|xl], c as [zc|xc].
  - cbn [pool_fits] in Hf. unfold py_mul. cbn [bind]. unfold py_truediv.
    destruct (int_true_divide (zl * zc) 1000) as [f|] eqn:E; [| discriminate].
    cbn [bind]. exists f. split; [reflexivity |].
    cbn [nonneg_finite] in Hl, Hc.
    apply andb_true_iff in Hl as [Hl _]. apply andb_true_iff in Hc as [Hc _].
    apply Z.leb_le in Hl, Hc.
    apply (int_true_divide_nonneg (zl * zc)); [nia | assumption].
  - rewrite py_mul_float_r, El. cbn [bind].
    cbn [as_float] in Ec. injection Ec as <-.
    apply div_1000_nonneg, fmul_nonneg; auto.
  - rewrite py_mul_float_l, Ec. cbn [bind].
    cbn [as_float] in El. injection El as <-.
    apply div_1000_nonneg, fmul_nonneg; auto.
  - rewrite py_mul_float_l, Ec. cbn [bind].
    cbn [as_float] in El. injection El as <-.
    apply div_1000_nonneg, fmul_nonneg; auto.
Qed.

(** C6, as stated, fails: a Swimming record with positive duration and
    action count but a negative pool length has a negative mean speed. *)
Lemma negative_pool_length_negative_speed :
  let self := Swimming (PyInt 720) (PyInt 1) (PyInt 80) (PyInt (-25)) (PyInt 40) in
  positive_finite (action self) = true /\
  positive_finite (duration self) = true /\
  get_mean_speed self = (self, Ok (PyFloat (flt (-1.0)))) /\
  F64.nonneg (flt (-1.0)) = false.
Proof. repeat split; vm_compute; reflexivity. Qed.

(** C6 (amended): for every workout record of any of the three variants
    whose action count and duration are positive, finite and within the
    range of a float, and, for Swimming, whose pool length and lap count
    are non-negative and finite with a pool distance within the range of a
    float, [get_distance] and [get_mean_speed] both return a float that
    is [>= 0], leaving the record as it was. *)
Theorem distance_and_speed_nonneg (self : Training) :
  positive_finite (action self) = true ->
  positive_finite (duration self) = true ->
  valid_pool self = true ->
  exists dist v : spec_float,
    get_distance self = (self, Ok (PyFloat dist)) /\
    F64.nonneg dist = true /\
    get_mean_speed self = (self, Ok (PyFloat v)) /\
    F64.nonneg v = true.
Proof.
  intros Ha Hd Hp.
  destruct (LEN_STEP_cases self) as (l & El & Nl & Fl).
  destruct (distance_km_nonneg l (action self) Nl Fl Ha) as (dist & Ed & Nd).
  assert (Hdist : get_distance self = (self, Ok (PyFloat dist))).
  { rewrite get_distance_eq, El. now rewrite Ed. }
  destruct self as [a d w|a d w h|a d w lp cp]; cbn [action duration] in *.
  - destruct (div_positive_nonneg dist d Nd Hd) as (v & Ev & Nv).
    exists dist, v. repeat split; try assumption.
    unfold get_mean_speed, Training_get_mean_speed, mbind.
    rewrite Hdist. unfold attr, eval. cbn [duration]. now rewrite Ev.
  - destruct (div_positive_nonneg dist d Nd Hd) as (v & Ev & Nv).
    exists dist, v. repeat split; try assumption.
    unfold get_mean_speed, Training_get_mean_speed, mbind.
    rewrite Hdist. unfold attr, eval. cbn [duration]. now rewrite Ev.
  - cbn [valid_pool] in Hp.
    apply andb_true_iff in Hp as [Hp Hf]. apply andb_true_iff in Hp as [Hl Hc].
    destruct (pool_km_nonneg lp cp Hl Hc Hf) as (y & Ey & Ny).
    destruct (div_positive_nonneg y d Ny Hd) as (v & Ev & Nv).
    exists dist, v. repeat split; try assumption.
    rewrite Swimming_get_mean_speed_eq.
    unfold Spec.swimming_mean_speed_kmh, Spec.lift2, Spec.val, Spec.int.
    cbn [bind] in *. destruct (py_mul lp cp) as [x|]; [| discriminate].
    cbn [bind] in *. rewrite Ey. cbn [bind]. now rewrite Ev.
Qed.

Lemma distance_and_speed_nonneg_witness :
  exists dist v : spec_float,
    get_distance swimming_example = (swimming_example, Ok (PyFloat dist)) /\
    F64.nonneg dist = true /\
    get_mean_speed swimming_example = (swimming_example, Ok (PyFloat v)) /\
    F64.nonneg v = true.
Proof.
  apply (distance_and_speed_nonneg swimming_example); vm_compute; reflexivity.
Defined.

(** ** Which exceptions the arithmetic raises *)

Lemma only_overflow_Ok {A : Type} (a : A) : only_overflow (Ok a).
Proof. intros e H. discriminate. Qed.

Lemma only_overflow_arith_only {A : Type} (r : result A) :
  only_overflow r -> arith_only r.
Proof. intros H e E. right. now apply H. Qed.

Lemma only_overflow_bind {A B : Type} (r : result A) (k : A -> result B) :
  only_overflow r -> (forall a, r = Ok a -> only_overflow (k a)) ->
  only_overflow (bind r k).
Proof.
  intros Hr Hk e. destruct r as [a|e']; cbn [bind].
  - now apply Hk.
  - intros H. injection H as <-. now apply Hr.
Qed.

Lemma arith_only_bind {A B : Type} (r : result A) (k : A -> result B) :
  arith_only r -> (forall a, r = Ok a -> arith_only (k a)) ->
  arith_only (bind r k).
Proof.
  intros Hr Hk e. destruct r as [a|e']; cbn [bind].
  - now apply Hk.
  - intros H. injection H as <-. now apply Hr.
Qed.

Lemma faults_bind {A B : Type} (r : result A) (k : A -> result B) :
  arith_only r -> (forall a, r = Ok a -> faults (k a)) -> faults (bind r k).
Proof.
  intros Hr Hk. destruct r as [a|e]; cbn [bind].
  - now apply Hk.
  - destruct (Hr e eq_refl) as [->| ->]; [now left | now right].
Qed.

Lemma faults_bind_l {A B : Type} (r : result A) (k : A -> result B) :
  faults r -> faults (bind r k).
Proof. intros [-> | ->]; [now left | now right]. Qed.

Lemma int_to_float_only_overflow (z : Z) : only_overflow (int_to_float z).
Proof.
  intros e. unfold int_to_float. destruct (F64.of_Z z); congruence.
Qed.

Lemma as_float_only_overflow (n : number) : only_overflow (as_float n).
Proof.
  destruct n; [apply int_to_float_only_overflow | apply only_overflow_Ok].
Qed.

Lemma float_binop_only_overflow op (a b : number) :
  only_overflow (float_binop op a b).
Proof.
  unfold float_binop.
  apply only_overflow_bind; [apply as_float_only_overflow | intros x _].
  apply only_overflow_bind; [apply as_float_only_overflow | intros y _].
  apply only_overflow_Ok.
Qed.

Lemma py_mul_only_overflow (a b : number) : only_overflow (py_mul a b).
Proof.
  destruct a, b; try apply float_binop_only_overflow; apply only_overflow_Ok.
Qed.

Lemma py_add_only_overflow (a b : number) : only_overflow (py_add a b).
Proof.
  destruct a, b; try apply float_binop_only_overflow; apply only_overflow_Ok.
Qed.

Lemma py_sub_only_overflow (a b : number) : only_overflow (py_sub a b).
Proof.
  destruct a, b; try apply float_binop_only_overflow; apply only_overflow_Ok.
Qed.

Lemma float_pow2_only_overflow (x : spec_float) : only_overflow (float_pow2 x).
Proof.
  intros e. destruct x as [s|s| |s m ex]; cbn [float_pow2]; try discriminate.
  destruct (faithful_square _ _ _); congruence.
Qed.

Lemma py_pow2_only_overflow (a : number) : only_overflow (py_pow2 a).
Proof.
  destruct a as [z|x]; cbn [py_pow2]; [apply only_overflow_Ok |].
  apply only_overflow_bind; [apply float_pow2_only_overflow | intros r _].
  apply only_overflow_Ok.
Qed.

(** *** Division: by a divisor that is not zero *)

Lemma int_true_divide_only_overflow (a b : Z) :
  b <> 0 -> only_overflow (int_true_divide a b).
Proof.
  intros Hb e. unfold int_true_divide.
  destruct (Z.eqb_spec b 0); [contradiction |].
  destruct (a =? 0); [discriminate |].
  destruct (SFdiv_core_binary prec emax (Z.abs a) 0 (Z.abs b) 0) as [[q ex] l].
  destruct (binary_round_aux prec emax _ q ex l); congruence.
Qed.

Lemma float_div_nonzero (x y : spec_float) :
  F64.is_zero y = false -> float_div x y = Ok (F64.fdiv x y).
Proof. intros H. unfold float_div. now rewrite H. Qed.

Lemma float_floor_div_nonzero (x y : spec_float) :
  F64.is_zero y = false -> exists f, float_floor_div x y = Ok f.
Proof.
  intros H. unfold float_floor_div. rewrite H.
  match goal with |- context [if ?c then _ else _] => destruct c end;
    eexists; reflexivity.
Qed.

Lemma py_truediv_only_overflow (a b : number) :
  is_zero_number b = false -> only_overflow (py_truediv a b).
Proof.
  intros Hb.
  assert (Hf : only_overflow
                 (x <- as_float a ;; y <- as_float b ;;
                  f <- float_div x y ;; Ok (PyFloat f))%py).
  { apply only_overflow_bind; [apply as_float_only_overflow | intros x _].
    apply only_overflow_bind; [apply as_float_only_overflow | intros y Ey].
    rewrite float_div_nonzero.
    - apply only_overflow_Ok.
    - now rewrite (as_float_is_zero b y Ey). }
  destruct a as [za|xa], b as [zb|xb]; try exact Hf.
  unfold py_truediv.
  apply only_overflow_bind; [| intros; apply only_overflow_Ok].
  apply int_true_divide_only_overflow. now apply Z.eqb_neq.
Qed.

Lemma py_floordiv_only_overflow (a b : number) :
  is_zero_number b = false -> only_overflow (py_floordiv a b).
Proof.
  intros Hb.
  assert (Hf : only_overflow
                 (x <- as_float a ;; y <- as_float b ;;
                  f <- float_floor_div x y ;; Ok (PyFloat f))%py).
  { apply only_overflow_bind; [apply as_float_only_overflow | intros x _].
    apply only_overflow_bind; [apply as_float_only_overflow | intros y Ey].
    destruct (float_floor_div_nonzero x y) as [f ->].
    - now rewrite (as_float_is_zero b y Ey).
    - apply only_overflow_Ok. }
  destruct a as [za|xa], b as [zb|xb]; try exact Hf.
  unfold py_floordiv. cbn [is_zero_number] in Hb. rewrite Hb.
  apply only_overflow_Ok.
Qed.

(** *** Division: by zero *)

Lemma py_truediv_by_zero (a b : number) :
  is_zero_number b = true -> faults (py_truediv a b).
Proof.
  intros Hb.
  assert (Hf : faults (x <- as_float a ;; y <- as_float b ;;
                       f <- float_div x y ;; Ok (PyFloat f))%py).
  { apply faults_bind;
      [apply only_overflow_arith_only, as_float_only_overflow | intros x _].
    apply faults_bind;
      [apply only_overflow_arith_only, as_float_only_overflow | intros y Ey].
    unfold float_div. rewrite (as_float_is_zero b y Ey), Hb. now left. }
  destruct a as [za|xa], b as [zb|xb]; try exact Hf.
  unfold py_truediv, int_true_divide. cbn [is_zero_number] in Hb. rewrite Hb.
  now left.
Qed.

Lemma py_truediv_float_by_zero (x : spec_float) (b : number) :
  is_zero_number b = true ->
  py_truediv (PyFloat x) b = Raise ZeroDivisionError.
Proof.
  intros Hb. rewrite py_truediv_float_l.
  destruct b as [z|y]; cbn [is_zero_number] in Hb.
  - apply Z.eqb_eq in Hb. subst z. reflexivity.
  - cbn [as_float bind]. unfold float_div. now rewrite Hb.
Qed.

Lemma py_floordiv_by_zero (a b : number) :
  is_zero_number b = true -> faults (py_floordiv a b).
Proof.
  intros Hb.
  assert (Hf : faults (x <- as_float a ;; y <- as_float b ;;
                       f <- float_floor_div x y ;; Ok (PyFloat f))%py).
  { apply faults_bind;
      [apply only_overflow_arith_only, as_float_only_overflow | intros x _].
    apply faults_bind;
      [apply only_overflow_arith_only, as_float_only_overflow | intros y Ey].
    unfold float_floor_div. rewrite (as_float_is_zero b y Ey), Hb. now left. }
  destruct a as [za|xa], b as [zb|xb]; try exact Hf.
  unfold py_floordiv. cbn [is_zero_number] in Hb. rewrite Hb. now left.
Qed.

Lemma py_truediv_arith_only (a b : number) : arith_only (py_truediv a b).
Proof.
  destruct (is_zero_number b) eqn:Hb.
  - intros e E. destruct (py_truediv_by_zero a b Hb) as [H|H];
      rewrite H in E; injection E as <-; auto.
  - now apply only_overflow_arith_only, py_truediv_only_overflow.
Qed.

Lemma py_floordiv_arith_only (a b : number) : arith_only (py_floordiv a b).
Proof.
  destruct (is_zero_number b) eqn:Hb.
  - intros e E. destruct (py_floordiv_by_zero a b Hb) as [H|H];
      rewrite H in E; injection E as <-; auto.
  - now apply only_overflow_arith_only, py_floordiv_only_overflow.
Qed.

(** ** Which exceptions the metric operations raise *)

Ltac spec_expr :=
  cbv beta delta [Spec.distance_km Spec.mean_speed_kmh
    Spec.swimming_mean_speed_kmh Spec.running_calories Spec.walking_calories
    Spec.swimming_calories Spec.lift2 Spec.val Spec.int Spec.lit
    Spec.floor_divide Spec.squared];
  cbn [bind].

Ltac only_overflow :=
  repeat first
    [ apply only_overflow_Ok
    | apply py_mul_only_overflow
    | apply py_add_only_overflow
    | apply py_sub_only_overflow
    | apply py_pow2_only_overflow
    | apply py_truediv_only_overflow; solve [assumption | reflexivity]
    | apply py_floordiv_only_overflow; solve [assumption | reflexivity]
    | apply only_overflow_bind; [ | intros ? _ ] ].

Ltac arith_only :=
  repeat first
    [ apply py_truediv_arith_only
    | apply py_floordiv_arith_only
    | apply only_overflow_arith_only;
      first [ apply only_overflow_Ok | apply py_mul_only_overflow
            | apply py_add_only_overflow | apply py_sub_only_overflow
            | apply py_pow2_only_overflow ]
    | apply arith_only_bind; [ | intros ? _ ] ].

Lemma distance_km_only_overflow (l a : number) :
  only_overflow (Spec.distance_km l a).
Proof. spec_expr. only_overflow. Qed.

Lemma mean_speed_only_overflow (a d : number) :
  is_zero_number d = false -> only_overflow (Spec.mean_speed_kmh a d).
Proof. intros Hd. spec_expr. only_overflow. Qed.

Lemma swimming_mean_speed_only_overflow (d l c : number) :
  is_zero_number d = false ->
  only_overflow (Spec.swimming_mean_speed_kmh d l c).
Proof. intros Hd. spec_expr. only_overflow. Qed.

Lemma running_calories_only_overflow (a d w : number) :
  is_zero_number d = false -> only_overflow (Spec.running_calories a d w).
Proof. intros Hd. spec_expr. only_overflow. Qed.

Lemma walking_calories_only_overflow (a d w h : number) :
  is_zero_number d = false -> is_zero_number h = false ->
  only_overflow (Spec.walking_calories a d w h).
Proof. intros Hd Hh. spec_expr. only_overflow. Qed.

Lemma swimming_calories_only_overflow (d w l c : number) :
  is_zero_number d = false -> only_overflow (Spec.swimming_calories d w l c).
Proof. intros Hd. spec_expr. only_overflow. Qed.

Lemma mean_speed_arith_only (a d : number) :
  arith_only (Spec.mean_speed_kmh a d).
Proof. spec_expr. arith_only. Qed.

Lemma mean_speed_by_zero (a d : number) :
  is_zero_number d = true -> faults (Spec.mean_speed_kmh a d).
Proof.
  intros Hd. spec_expr.
  apply faults_bind; [arith_only | intros x _].
  now apply py_truediv_by_zero.
Qed.

Lemma swimming_mean_speed_by_zero (d l c : number) :
  is_zero_number d = true -> faults (Spec.swimming_mean_speed_kmh d l c).
Proof.
  intros Hd. spec_expr.
  apply faults_bind; [arith_only | intros x _].
  now apply py_truediv_by_zero.
Qed.

Lemma walking_calories_by_zero (a d w h : number) :
  is_zero_number h = true -> faults (Spec.walking_calories a d w h).
Proof.
  intros Hh. spec_expr.
  do 2 apply faults_bind_l.
  apply faults_bind; [arith_only | intros x1 _].
  do 3 apply faults_bind_l.
  apply faults_bind; [arith_only | intros v2 _].
  now apply py_floordiv_by_zero.
Qed.

(** *** Inputs within the range of a float *)

Lemma fits_as_float (n : number) :
  fits n = true -> exists f, as_float n = Ok f.
Proof.
  unfold fits. destruct (as_float n) as [f|]; [now exists f | discriminate].
Qed.

Lemma py_add_float_l (x : spec_float) (b : number) :
  py_add (PyFloat x) b
  = (y <- as_float b ;; Ok (PyFloat (F64.fadd x y)))%py.
Proof. destruct b; reflexivity. Qed.

Lemma py_sub_float_l (x : spec_float) (b : number) :
  py_sub (PyFloat x) b
  = (y <- as_float b ;; Ok (PyFloat (F64.fsub x y)))%py.
Proof. destruct b; reflexivity. Qed.

Lemma py_floordiv_float_l (x : spec_float) (b : number) :
  py_floordiv (PyFloat x) b
  = (y <- as_float b ;; f <- float_floor_div x y ;; Ok (PyFloat f))%py.
Proof. destruct b; reflexivity. Qed.

Lemma mul_fits (x : spec_float) (n : number) :
  fits n = true -> is_float (py_mul (PyFloat x) n).
Proof.
  intros H. destruct (fits_as_float n H) as [f E].
  rewrite py_mul_float_l, E. eexists; reflexivity.
Qed.

Lemma mul_fits_l (n : number) (x : spec_float) :
  fits n = true -> is_float (py_mul n (PyFloat x)).
Proof.
  intros H. destruct (fits_as_float n H) as [f E].
  rewrite py_mul_float_r, E. eexists; reflexivity.
Qed.

Lemma add_fits (x : spec_float) (n : number) :
  fits n = true -> is_float (py_add (PyFloat x) n).
Proof.
  intros H. destruct (fits_as_float n H) as [f E].
  rewrite py_add_float_l, E. eexists; reflexivity.
Qed.

Lemma sub_fits (x : spec_float) (n : number) :
  fits n = true -> is_float (py_sub (PyFloat x) n).
Proof.
  intros H. destruct (fits_as_float n H) as [f E].
  rewrite py_sub_float_l, E. eexists; reflexivity.
Qed.

Lemma truediv_fits (x : spec_float) (n : number) :
  fits n = true -> is_zero_number n = false ->
  is_float (py_truediv (PyFloat x) n).
Proof.
  intros H Hz. destruct (fits_as_float n H) as [f E].
  rewrite py_truediv_float_l, E. cbn [bind].
  rewrite float_div_nonzero by now rewrite (as_float_is_zero n f E).
  eexists; reflexivity.
Qed.

Lemma floordiv_fits (x : spec_float) (n : number) :
  fits n = true -> is_zero_number n = false ->
  is_float (py_floordiv (PyFloat x) n).
Proof.
  intros H Hz. destruct (fits_as_float n H) as [f E].
  rewrite py_floordiv_float_l, E. cbn [bind].
  destruct (float_floor_div_nonzero x f) as [r ->].
  - now rewrite (as_float_is_zero n f E).
  - eexists; reflexivity.
Qed.

Lemma small_ints_fit :
  fits (PyInt 2) = true /\ fits (PyInt 18) = true /\ fits (PyInt 20) = true /\
  fits (PyInt 60) = true /\ fits (PyInt 1000) = true.
Proof. repeat split; vm_compute; reflexivity. Qed.

(** Rewrites the head operation of a chain of binds into its float
    outcome. *)
Tactic Notation "step" constr(L) "as" ident(f) :=
  let E := fresh "E" in
  destruct L as [f E]; [ try assumption; try reflexivity ..
                       | rewrite E; cbn [bind]; clear E ].

Lemma distance_km_fits (l : spec_float) (a : number) :
  fits a = true -> is_float (Spec.distance_km (PyFloat l) a).
Proof.
  intros Ha. spec_expr.
  step (mul_fits_l a l Ha) as x.
  apply truediv_fits; [apply small_ints_fit | reflexivity].
Qed.

Lemma mean_speed_fits (a d : number) :
  fits a = true -> fits d = true -> is_zero_number d = false ->
  is_float (Spec.mean_speed_kmh a d).
Proof.
  intros Ha Hd Hz. unfold Spec.mean_speed_kmh.
  destruct (distance_km_fits (flt 0.65) a Ha) as [dist E].
  unfold Spec.lift2 at 1. rewrite E. spec_expr.
  now apply truediv_fits.
Qed.

Lemma pool_km_fits (l c : number) :
  fits l = true -> fits c = true -> pool_fits l c = true ->
  is_float (x <- py_mul l c ;; py_truediv x (PyInt 1000))%py.
Proof.
  intros Hl Hc Hp. destruct l as [zl|xl], c as [zc|xc].
  - cbn [pool_fits] in Hp. unfold py_mul. cbn [bind]. unfold py_truediv.
    destruct (int_true_divide (zl * zc) 1000) as [f|]; [| discriminate].
    eexists; reflexivity.
  - step (mul_fits_l (PyInt zl) xc Hl) as x.
    apply truediv_fits; [apply small_ints_fit | reflexivity].
  - step (mul_fits xl (PyInt zc) Hc) as x.
    apply truediv_fits; [apply small_ints_fit | reflexivity].
  - step (mul_fits xl (PyFloat xc) Hc) as x.
    apply truediv_fits; [apply small_ints_fit | reflexivity].
Qed.

Lemma swimming_mean_speed_fits (d l c : number) :
  fits d = true -> is_zero_number d = false ->
  fits l = true -> fits c = true -> pool_fits l c = true ->
  is_float (Spec.swimming_mean_speed_kmh d l c).
Proof.
  intros Hd Hz Hl Hc Hp. spec_expr.
  destruct (pool_km_fits l c Hl Hc Hp) as [y E].
  destruct (py_mul l c) as [x|]; cbn [bind] in *; [| discriminate E].
  rewrite E. cbn [bind]. now apply truediv_fits.
Qed.

Lemma running_calories_fits (a d w : number) :
  fits a = true -> fits d = true -> fits w = true ->
  is_zero_number d = false ->
  is_float (Spec.running_calories a d w).
Proof.
  intros Ha Hd Hw Hz. unfold Spec.running_calories.
  destruct (mean_speed_fits a d Ha Hd Hz) as [v E].
  rewrite E. spec_expr.
  step (mul_fits_l (PyInt 18) v) as x1.
  step (sub_fits x1 (PyInt 20)) as x2.
  step (mul_fits x2 w Hw) as x3.
  step (truediv_fits x3 (PyInt 1000)) as x4.
  step (mul_fits x4 d Hd) as x5.
  now apply mul_fits.
Qed.

Lemma swimming_calories_fits (d w l c : number) :
  fits d = true -> is_zero_number d = false -> fits w = true ->
  fits l = true -> fits c = true -> pool_fits l c = true ->
  is_float (Spec.swimming_calories d w l c).
Proof.
  intros Hd Hz Hw Hl Hc Hp. unfold Spec.swimming_calories.
  destruct (swimming_mean_speed_fits d l c Hd Hz Hl Hc Hp) as [v E].
  rewrite E. spec_expr.
  step (add_fits v (PyFloat (flt 1.1))) as x1.
  step (mul_fits x1 (PyInt 2)) as x2.
  now apply mul_fits.
Qed.

Lemma walking_calories_fits (a d w h : number) (v : spec_float) :
  fits a = true -> fits d = true -> fits w = true -> fits h = true ->
  is_zero_number d = false -> is_zero_number h = false ->
  Spec.mean_speed_kmh a d = Ok (PyFloat v) ->
  is_ok (float_pow2 v) = true ->
  is_float (Spec.walking_calories a d w h).
Proof.
  intros Ha Hd Hw Hh Hz Hzh Ev Hsq. unfold Spec.walking_calories.
  rewrite Ev. spec_expr.
  step (mul_fits (flt 0.035) w Hw) as x1.
  unfold py_pow2.
  destruct (float_pow2 v) as [v2|]; [| discriminate]. cbn [bind].
  step (floordiv_fits v2 h Hh Hzh) as x2.
  step (mul_fits x2 (PyFloat (flt 0.029))) as x3.
  step (mul_fits x3 w Hw) as x4.
  step (add_fits x1 (PyFloat x4)) as x5.
  step (mul_fits x5 d Hd) as x6.
  now apply mul_fits.
Qed.

Lemma py_floordiv_float_by_zero (x : spec_float) (b : number) :
  is_zero_number b = true ->
  py_floordiv (PyFloat x) b = Raise ZeroDivisionError.
Proof.
  intros Hb. rewrite py_floordiv_float_l.
  destruct b as [z|y]; cbn [is_zero_number] in Hb.
  - apply Z.eqb_eq in Hb. subst z. reflexivity.
  - cbn [as_float bind]. unfold float_floor_div. now rewrite Hb.
Qed.

Lemma get_mean_speed_eq (self : Training) :
  get_mean_speed self
  = (self,
     match self with
     | Swimming _ d _ l c => Spec.swimming_mean_speed_kmh d l c
     | _ => Spec.mean_speed_kmh (action self) (duration self)
     end).
Proof.
  destruct self.
  - unfold get_mean_speed. now rewrite Training_get_mean_speed_eq.
  - unfold get_mean_speed. now rewrite Training_get_mean_speed_eq.
  - apply Swimming_get_mean_speed_eq.
Qed.

Lemma get_spent_calories_eq (self : Training) :
  get_spent_calories self
  = (self,
     match self with
     | Running a d w => Spec.running_calories a d w
     | SportsWalking a d w h => Spec.walking_calories a d w h
     | Swimming _ d w l c => Spec.swimming_calories d w l c
     end).
Proof.
  destruct self.
  - apply Running_get_spent_calories_eq.
  - apply SportsWalking_get_spent_calories_eq.
  - apply Swimming_get_spent_calories_eq.
Qed.

Lemma is_float_is_ok (r : result number) : is_float r -> is_ok r = true.
Proof. intros [f ->]. reflexivity. Qed.

Lemma metric_only_overflow (self : Training) :
  nonzero_divisors self = true ->
  only_overflow (snd (get_distance self)) /\
  only_overflow (snd (get_mean_speed self)) /\
  only_overflow (snd (get_spent_calories self)).
Proof.
  intros H. unfold nonzero_divisors in H.
  apply andb_true_iff in H as [Hd Hh]. apply negb_true_iff in Hd.
  rewrite get_distance_eq, get_mean_speed_eq, get_spent_calories_eq.
  cbn [snd].
  split; [apply distance_km_only_overflow |].
  destruct self as [a d w|a d w h|a d w l c]; cbn [action duration] in *.
  - split; [now apply mean_speed_only_overflow
           | now apply running_calories_only_overflow].
  - apply negb_true_iff in Hh.
    split; [now apply mean_speed_only_overflow
           | now apply walking_calories_only_overflow].
  - split; [now apply swimming_mean_speed_only_overflow
           | now apply swimming_calories_only_overflow].
Qed.

Lemma metric_returns (self : Training) :
  nonzero_divisors self = true -> in_range self = true ->
  is_ok (snd (get_distance self)) = true /\
  is_ok (snd (get_mean_speed self)) = true /\
  is_ok (snd (get_spent_calories self)) = true.
Proof.
  intros H R. unfold nonzero_divisors in H.
  apply andb_true_iff in H as [Hd Hh]. apply negb_true_iff in Hd.
  unfold in_range in R.
  apply andb_true_iff in R as [R Rc]. apply andb_true_iff in R as [R Rw].
  apply andb_true_iff in R as [Ra Rd].
  destruct (LEN_STEP_cases self) as (l & El & _).
  rewrite get_mean_speed_eq in Rc.
  rewrite get_distance_eq, get_mean_speed_eq, get_spent_calories_eq, El.
  cbn [snd] in *.
  split; [now apply is_float_is_ok, distance_km_fits |].
  destruct self as [a d w|a d w h|a d w lp cp];
    cbn [action duration weight] in *.
  - split; apply is_float_is_ok;
      [now apply mean_speed_fits | now apply running_calories_fits].
  - apply negb_true_iff in Hh. apply andb_true_iff in Rc as [Rh Rs].
    destruct (mean_speed_fits a d Ra Rd Hd) as [v Ev].
    split; [rewrite Ev; reflexivity |].
    rewrite Ev in Rs. unfold py_pow2 in Rs.
    apply is_float_is_ok, (walking_calories_fits a d w h v); auto.
    destruct (float_pow2 v); [reflexivity | discriminate].
  - apply andb_true_iff in Rc as [Rc Rp]. apply andb_true_iff in Rc as [Rl Rcp].
    split; apply is_float_is_ok;
      [now apply swimming_mean_speed_fits | now apply swimming_calories_fits].
Qed.

Lemma mean_speed_zero_duration (self : Training) :
  is_zero_number (duration self) = true ->
  faults (snd (get_mean_speed self)) /\
  (in_range self = true ->
   snd (get_mean_speed self) = Raise ZeroDivisionError).
Proof.
  intros Hd. rewrite get_mean_speed_eq. cbn [snd]. split.
  - destruct self; cbn [action duration] in *;
      first [now apply mean_speed_by_zero
            | now apply swimming_mean_speed_by_zero].
  - intros R. unfold in_range in R.
    apply andb_true_iff in R as [R Rc]. apply andb_true_iff in R as [R Rw].
    apply andb_true_iff in R as [Ra Rd].
    assert (Hbase : Spec.mean_speed_kmh (action self) (duration self)
                    = Raise ZeroDivisionError).
    { unfold Spec.mean_speed_kmh.
      destruct (distance_km_fits (flt 0.65) (action self) Ra) as [dist E].
      unfold Spec.lift2 at 1. rewrite E. spec_expr.
      now apply py_truediv_float_by_zero. }
    destruct self as [a d w|a d w h|a d w lp cp]; try exact Hbase.
    cbn [duration] in Hd.
    apply andb_true_iff in Rc as [Rc Rp]. apply andb_true_iff in Rc as [Rl Rcp].
    spec_expr.
    destruct (pool_km_fits lp cp Rl Rcp Rp) as [y E].
    destruct (py_mul lp cp) as [x|]; cbn [bind] in *; [| discriminate E].
    rewrite E. cbn [bind]. now apply py_truediv_float_by_zero.
Qed.

Lemma calories_zero_height (self : Training) :
  zero_height self = true ->
  faults (snd (get_spent_calories self)) /\
  (in_range self = true -> is_zero_number (duration self) = false ->
   snd (get_spent_calories self) = Raise ZeroDivisionError).
Proof.
  intros Hh. destruct self as [a d w|a d w h|a d w lp cp];
    cbn [zero_height] in Hh; try discriminate.
  rewrite get_spent_calories_eq. cbn [snd]. split.
  - now apply walking_calories_by_zero.
  - intros R Hd. unfold in_range in R. cbn [action duration weight] in *.
    apply andb_true_iff in R as [R Rc]. apply andb_true_iff in R as [R Rw].
    apply andb_true_iff in R as [Ra Rd]. apply andb_true_iff in Rc as [Rh Rs].
    rewrite get_mean_speed_eq in Rs. cbn [snd action duration] in Rs.
    destruct (mean_speed_fits a d Ra Rd Hd) as [v Ev].
    rewrite Ev in Rs. unfold Spec.walking_calories. rewrite Ev. spec_expr.
    step (mul_fits (flt 0.035) w Rw) as x1.
    destruct (py_pow2 (PyFloat v)) as [v2|] eqn:E2; [| discriminate].
    unfold py_pow2 in E2. destruct (float_pow2 v) as [r|]; [| discriminate].
    cbn [bind] in E2. injection E2 as <-. cbn [bind].
    now rewrite py_floordiv_float_by_zero.
Qed.

(** *** Nothing catches them *)

Lemma show_training_info_Ok (self : Training) (info : InfoMessage.t) :
  snd (show_training_info self) = Ok info ->
  info = InfoMessage.Build (class_name self) (duration self)
           (InfoMessage.distance info) (InfoMessage.speed info)
           (InfoMessage.calories info) /\
  snd (get_distance self) = Ok (InfoMessage.distance info) /\
  snd (get_mean_speed self) = Ok (InfoMessage.speed info) /\
  snd (get_spent_calories self) = Ok (InfoMessage.calories info).
Proof.
  unfold show_training_info, mbind at 1 2, attr.
  pose proof (get_distance_leaves_self self) as H1.
  unfold mbind at 1.
  destruct (get_distance self) as [s1 [dist|e]]; cbn [fst snd] in *;
    [subst s1 | discriminate].
  pose proof (get_mean_speed_leaves_self self) as H2.
  unfold mbind at 1.
  destruct (get_mean_speed self) as [s2 [v|e]]; cbn [fst snd] in *;
    [subst s2 | discriminate].
  unfold mbind.
  destruct (get_spent_calories self) as [s3 [c|e]]; cbn [fst snd];
    [| discriminate].
  unfold mret. cbn [snd]. intros H. injection H as <-. cbn. auto.
Qed.

Lemma show_training_info_Raise (self : Training) :
  is_ok (snd (get_distance self)) = false \/
  is_ok (snd (get_mean_speed self)) = false \/
  is_ok (snd (get_spent_calories self)) = false ->
  is_ok (snd (show_training_info self)) = false.
Proof.
  intros H. destruct (snd (show_training_info self)) as [info|e] eqn:E;
    [| reflexivity].
  destruct (show_training_info_Ok self info E) as (_ & H1 & H2 & H3).
  rewrite H1, H2, H3 in H. cbn in H. intuition discriminate.
Qed.

Lemma main_reraises (self : Training) (out : list string) (e : exn) :
  snd (show_training_info self) = Raise e -> main self out = (out, Raise e).
Proof.
  unfold main. destruct (show_training_info self) as [s [info|e']];
    cbn [snd]; intros H; [discriminate | now injection H as <-].
Qed.

(** C7 (amended): with a duration (and, for SportsWalking, a height)
    that is not zero, no metric operation raises ZeroDivisionError: the
    one exception left is OverflowError, and there is none at all when
    the fields, the integer pool distance and the squared walking speed
    are within the range of a float.  With a zero duration
    [get_mean_speed] never returns: it raises ZeroDivisionError, unless
    an OverflowError comes first; likewise SportsWalking's
    [get_spent_calories] with a zero height.  Nothing catches either:
    [show_training_info] fails when a metric does, and [main] re-raises
    without printing. *)
Theorem metric_operations_faults (self : Training) (out : list string) :
  (nonzero_divisors self = true ->
   only_overflow (snd (get_distance self)) /\
   only_overflow (snd (get_mean_speed self)) /\
   only_overflow (snd (get_spent_calories self))) /\
  (nonzero_divisors self = true -> in_range self = true ->
   is_ok (snd (get_distance self)) = true /\
   is_ok (snd (get_mean_speed self)) = true /\
   is_ok (snd (get_spent_calories self)) = true) /\
  (is_zero_number (duration self) = true ->
   faults (snd (get_mean_speed self)) /\
   (in_range self = true ->
    snd (get_mean_speed self) = Raise ZeroDivisionError)) /\
  (zero_height self = true ->
   faults (snd (get_spent_calories self)) /\
   (in_range self = true -> is_zero_number (duration self) = false ->
    snd (get_spent_calories self) = Raise ZeroDivisionError)) /\
  (is_ok (snd (get_distance self)) = false \/
   is_ok (snd (get_mean_speed self)) = false \/
   is_ok (snd (get_spent_calories self)) = false ->
   is_ok (snd (show_training_info self)) = false) /\
  (forall e, snd (show_training_info self) = Raise e ->
             main self out = (out, Raise e)).
Proof.
  split; [apply metric_only_overflow |].
  split; [apply metric_returns |].
  split; [apply mean_speed_zero_duration |].
  split; [apply calories_zero_height |].
  split; [apply show_training_info_Raise |].
  intros e. apply main_reraises.
Qed.

(** * More properties of the code *)

(** ** The factory, both ways *)

(** X1: for a code that [type_train] lists, [read_package] returns an
    object exactly when the number of values is the number of fields of
    the class (3, 4 or 5); with any other number the constructor's
    TypeError comes out, which the handler for KeyError lets through. *)
Theorem read_package_arity (workout_type : string) (cls : class)
    (data : list number) :
  getitem type_train workout_type = Ok cls ->
  (List.length data = field_count cls ->
   exists training, read_package workout_type data = Ok training /\
                    class_of training = cls /\ astuple training = data) /\
  (List.length data <> field_count cls ->
   read_package workout_type data = Raise TypeError).
Proof.
  intros H. rewrite (read_package_known _ _ _ H).
  destruct cls, data as [|a [|d [|w [|h [|c [|x r]]]]]]; cbn;
    split; intros L; try discriminate L; try congruence;
    eexists; repeat split; reflexivity.
Qed.

Lemma read_package_arity_witness :
  read_package "WLK" [PyInt 9000; PyInt 1; PyInt 75] = Raise TypeError.
Proof.
  apply (proj2 (read_package_arity "WLK" cSportsWalking
                  [PyInt 9000; PyInt 1; PyInt 75] eq_refl)).
  discriminate.
Defined.

(** X2: building and reading back are inverse: every object is what
    [read_package] builds from its own code and fields, and an object
    built from a code and values has that code and those values as
    fields, in order. *)
Theorem read_package_round_trip (training : Training)
    (workout_type : string) (data : list number) :
  read_package (code_of training) (astuple training) = Ok training /\
  (read_package workout_type data = Ok training ->
   workout_type = code_of training /\ data = astuple training).
Proof.
  split; [destruct training; reflexivity |].
  unfold read_package, type_train. cbn [getitem].
  destruct (String.eqb_spec "RUN" workout_type) as [<-|_].
  { cbn [bind]. intros H.
    destruct data as [|a [|d [|w [|h r]]]]; cbn in H; try discriminate.
    injection H as <-. split; reflexivity. }
  destruct (String.eqb_spec "SWM" workout_type) as [<-|_].
  { cbn [bind]. intros H.
    destruct data as [|a [|d [|w [|h [|c [|x r]]]]]]; cbn in H; try discriminate.
    injection H as <-. split; reflexivity. }
  destruct (String.eqb_spec "WLK" workout_type) as [<-|_].
  { cbn [bind]. intros H.
    destruct data as [|a [|d [|w [|h [|c r]]]]]; cbn in H; try discriminate.
    injection H as <-. split; reflexivity. }
  cbn. discriminate.
Qed.

Lemma read_package_round_trip_witness :
  "SWM"%string = code_of swimming_example /\
  [PyInt 720; PyInt 1; PyInt 80; PyInt 25; PyInt 40] = astuple swimming_example.
Proof.
  apply (proj2 (read_package_round_trip swimming_example "SWM"
                  [PyInt 720; PyInt 1; PyInt 80; PyInt 25; PyInt 40])).
  reflexivity.
Defined.

(** ** What the metric operations return *)

Lemma py_truediv_is_float (a b r : number) :
  py_truediv a b = Ok r -> exists f, r = PyFloat f.
Proof.
  destruct a as [x|x], b as [y|y]; unfold py_truediv;
    repeat match goal with
           | |- context [bind ?c _] => destruct c; cbn [bind]
           end;
    intros H; try discriminate H; injection H as <-; eexists; reflexivity.
Qed.

Lemma py_mul_float_is_float (x : spec_float) (b r : number) :
  py_mul (PyFloat x) b = Ok r -> exists f, r = PyFloat f.
Proof.
  rewrite py_mul_float_l. destruct (as_float b); cbn [bind];
    intros H; [injection H as <-; eexists; reflexivity | discriminate].
Qed.

Lemma py_add_float_is_float (x : spec_float) (b r : number) :
  py_add (PyFloat x) b = Ok r -> exists f, r = PyFloat f.
Proof.
  rewrite py_add_float_l. destruct (as_float b); cbn [bind];
    intros H; [injection H as <-; eexists; reflexivity | discriminate].
Qed.

Lemma py_truediv_float_fits (x : spec_float) (b r : number) :
  py_truediv (PyFloat x) b = Ok r -> fits b = true.
Proof.
  rewrite py_truediv_float_l. unfold fits.
  destruct (as_float b); cbn [bind]; [reflexivity | discriminate].
Qed.

(** Splits every hypothesis that a chain of binds returns into one
    equation per step. *)
Ltac invert_binds :=
  repeat match goal with
         | H : bind ?c _ = Ok _ |- _ =>
             let x := fresh "x" in
             let E := fresh "E" in
             destruct c as [x|] eqn:E; cbn [bind] in H; [| discriminate H]
         end.

(** Finds the results that the step equations make floats. *)
Ltac find_floats :=
  repeat match goal with
         | H : py_truediv _ _ = Ok ?r |- _ =>
             is_var r; destruct (py_truediv_is_float _ _ _ H) as [? ->]
         | H : py_mul (PyFloat _) _ = Ok ?r |- _ =>
             is_var r; destruct (py_mul_float_is_float _ _ _ H) as [? ->]
         | H : py_add (PyFloat _) _ = Ok ?r |- _ =>
             is_var r; destruct (py_add_float_is_float _ _ _ H) as [? ->]
         end.

Lemma mean_speed_returns (self : Training) (v : number) :
  snd (get_mean_speed self) = Ok v ->
  (exists f, v = PyFloat f) /\ fits (duration self) = true.
Proof.
  rewrite get_mean_speed_eq. cbn [snd].
  destruct self as [a d w|a d w h|a d w l c]; cbn [action duration];
    spec_expr; intros H; invert_binds;
    pose proof H as H'; find_floats;
    (split; [eexists; reflexivity | eapply py_truediv_float_fits; eauto]).
Qed.

Lemma distance_returns (self : Training) (r : number) :
  snd (get_distance self) = Ok r -> exists f, r = PyFloat f.
Proof.
  rewrite get_distance_eq. cbn [snd]. spec_expr.
  intros H. invert_binds. find_floats. eexists; reflexivity.
Qed.

Lemma calories_returns (self : Training) (r : number) :
  snd (get_spent_calories self) = Ok r -> exists f, r = PyFloat f.
Proof.
  rewrite get_spent_calories_eq. cbn [snd].
  destruct self as [a d w|a d w h|a d w l c]; spec_expr;
    intros H; invert_binds; find_floats; eexists; reflexivity.
Qed.

(** X3: whatever the fields hold, ints or floats, a metric operation
    that returns, returns a float, as the annotations of the three
    methods say. *)
Theorem metrics_return_floats (self : Training) (r : number) :
  snd (get_distance self) = Ok r \/
  snd (get_mean_speed self) = Ok r \/
  snd (get_spent_calories self) = Ok r ->
  exists f : spec_float, r = PyFloat f.
Proof.
  intros [H|[H|H]].
  - now apply (distance_returns self).
  - now destruct (mean_speed_returns self r H).
  - now apply (calories_returns self).
Qed.

(** ** The formatter, [main] and the driver *)

Lemma format_3f_is_ok (n : number) : is_ok (format_3f n) = fits n.
Proof. unfold format_3f, fits. destruct (as_float n); reflexivity. Qed.

Lemma format_3f_only_overflow (n : number) : only_overflow (format_3f n).
Proof.
  unfold format_3f.
  apply only_overflow_bind; [apply as_float_only_overflow | intros x _].
  apply only_overflow_Ok.
Qed.

Lemma get_message_is_ok (info : InfoMessage.t) :
  is_ok (snd (InfoMessage.get_message info))
  = (fits (InfoMessage.duration info) && fits (InfoMessage.distance info)
     && fits (InfoMessage.speed info) && fits (InfoMessage.calories info))%bool.
Proof.
  rewrite <- !format_3f_is_ok.
  unfold InfoMessage.get_message, mbind, attr, eval, mret.
  destruct (format_3f (InfoMessage.duration info)); [| reflexivity].
  destruct (format_3f (InfoMessage.distance info)); [| reflexivity].
  destruct (format_3f (InfoMessage.speed info)); [| reflexivity].
  destruct (format_3f (InfoMessage.calories info)); reflexivity.
Qed.

Lemma get_message_only_overflow (info : InfoMessage.t) :
  only_overflow (snd (InfoMessage.get_message info)).
Proof.
  pose proof (format_3f_only_overflow (InfoMessage.duration info)) as H1.
  pose proof (format_3f_only_overflow (InfoMessage.distance info)) as H2.
  pose proof (format_3f_only_overflow (InfoMessage.speed info)) as H3.
  pose proof (format_3f_only_overflow (InfoMessage.calories info)) as H4.
  unfold InfoMessage.get_message, mbind, attr, eval, mret.
  destruct (format_3f (InfoMessage.duration info)) as [?|err]; cbn [snd];
    [| intros e' E; injection E as <-; now apply H1].
  destruct (format_3f (InfoMessage.distance info)) as [?|err]; cbn [snd];
    [| intros e' E; injection E as <-; now apply H2].
  destruct (format_3f (InfoMessage.speed info)) as [?|err]; cbn [snd];
    [| intros e' E; injection E as <-; now apply H3].
  destruct (format_3f (InfoMessage.calories info)) as [?|err]; cbn [snd];
    [| intros e' E; injection E as <-; now apply H4].
  apply only_overflow_Ok.
Qed.

(** X4: [get_message] returns exactly when each of the four values is a
    float or an int within the range of a float; the one exception it
    raises is the OverflowError of formatting too large an int. *)
Theorem get_message_fails_on_huge_ints_only (info : InfoMessage.t) :
  is_ok (snd (InfoMessage.get_message info))
  = (fits (InfoMessage.duration info) && fits (InfoMessage.distance info)
     && fits (InfoMessage.speed info) && fits (InfoMessage.calories info))%bool /\
  only_overflow (snd (InfoMessage.get_message info)).
Proof.
  split; [apply get_message_is_ok | apply get_message_only_overflow].
Qed.

Lemma summary_formats (self : Training) (info : InfoMessage.t) :
  snd (show_training_info self) = Ok info ->
  exists line, snd (InfoMessage.get_message info) = Ok line.
Proof.
  intros H.
  destruct (show_training_info_Ok self info H) as (Hi & H1 & H2 & H3).
  destruct (distance_returns self _ H1) as [f1 E1].
  destruct (mean_speed_returns self _ H2) as [[f2 E2] Hd].
  destruct (calories_returns self _ H3) as [f3 E3].
  assert (Hdur : InfoMessage.duration info = duration self)
    by (rewrite Hi; reflexivity).
  pose proof (get_message_is_ok info) as Hok.
  rewrite Hdur, E1, E2, E3, Hd in Hok.
  change (is_ok (snd (InfoMessage.get_message info)) = true) in Hok.
  destruct (snd (InfoMessage.get_message info)) as [line|];
    [now exists line | discriminate Hok].
Qed.

(** X5: once the three metrics of a workout return, nothing else can
    fail: [main] then prints one line, the message of the summary, after
    what was printed before; and when a metric raises, [main] raises the
    same exception and prints nothing. *)
Theorem main_prints_the_summary (training : Training) (out : list string) :
  (forall info, snd (show_training_info training) = Ok info ->
     exists line, snd (InfoMessage.get_message info) = Ok line /\
                  main training out = ((out ++ [line])%list, Ok tt)) /\
  (forall e, snd (show_training_info training) = Raise e ->
     main training out = (out, Raise e)).
Proof.
  split; [| intros e; apply main_reraises].
  intros info H. destruct (summary_formats training info H) as [line E].
  exists line. split; [assumption |].
  unfold main. destruct (show_training_info training) as [s r].
  cbn [snd] in H. subst r.
  destruct (InfoMessage.get_message info) as [s' r']. cbn [snd] in E.
  now subst r'.
Qed.

Lemma run_step (package : string * list number)
    (rest : list (string * list number)) (out : list string) :
  run (package :: rest) out
  = match report package with
    | Ok line => run rest (out ++ [line])%list
    | Raise e => (out, Raise e)
    end.
Proof.
  destruct package as [workout_type data]. unfold report. cbn [run fst snd].
  destruct (read_package workout_type data) as [training|e]; cbn [bind];
    [| reflexivity].
  unfold main.
  destruct (show_training_info training) as [s [info|e]]; cbn [snd bind];
    [| reflexivity].
  destruct (InfoMessage.get_message info) as [s' [line|e]]; reflexivity.
Qed.

(** X6: the driver handles a list of packages piece by piece: running
    two lists in a row is running their concatenation, and the second
    list is not touched when the first one fails. *)
Theorem run_app (ps qs : list (string * list number)) (out : list string) :
  run (ps ++ qs)%list out
  = match run ps out with
    | (out', Ok _) => run qs out'
    | (out', Raise e) => (out', Raise e)
    end.
Proof.
  revert out. induction ps as [|p ps IH]; intros out.
  - reflexivity.
  - rewrite <- app_comm_cons, !run_step.
    destruct (report p) as [line|e]; [apply IH | reflexivity].
Qed.

(** X7: the driver prints the summaries of the packages one per line,
    in the order of the list, after what was there; at the first package
    whose workout cannot be built or summarised it stops with that
    exception, the lines of the packages before it printed and none
    after. *)
Theorem run_prints_in_order (ps : list (string * list number))
    (out : list string) :
  (forall lines,
      Forall2 (fun p line => report p = Ok line) ps lines ->
      run ps out = ((out ++ lines)%list, Ok tt)) /\
  (forall before p after lines e,
      ps = (before ++ p :: after)%list ->
      Forall2 (fun p line => report p = Ok line) before lines ->
      report p = Raise e ->
      run ps out = ((out ++ lines)%list, Raise e)).
Proof.
  split.
  - intros lines H. revert out.
    induction H as [|p line ps lines Hp _ IH]; intros out.
    + now rewrite app_nil_r.
    + rewrite run_step, Hp, IH, <- app_assoc. reflexivity.
  - intros before p after lines e -> H Hp. revert out.
    induction H as [|q line qs lines Hq _ IH]; intros out.
    + cbn [app]. now rewrite run_step, Hp, app_nil_r.
    + rewrite <- app_comm_cons, run_step, Hq, IH, <- app_assoc. reflexivity.
Qed.

(** ** Swimming: the pool fields *)

Lemma fmul_comm (x y : spec_float) : F64.fmul x y = F64.fmul y x.
Proof.
  destruct x as [sx|sx| |sx mx ex], y as [sy|sy| |sy my ey]; cbn;
    rewrite ?(xorb_comm sx sy); try reflexivity.
  now rewrite Pos.mul_comm, Z.add_comm.
Qed.

Lemma py_mul_comm (a b : number) : py_mul a b = py_mul b a.
Proof.
  assert (H : forall a b, float_binop F64.fmul a b = float_binop F64.fmul b a).
  { clear. intros a b. unfold float_binop.
    pose proof (as_float_only_overflow a) as Ha.
    pose proof (as_float_only_overflow b) as Hb.
    destruct (as_float a) as [x|e1], (as_float b) as [y|e2]; cbn [bind].
    - now rewrite fmul_comm.
    - reflexivity.
    - reflexivity.
    - now rewrite (Ha e1), (Hb e2). }
  destruct a as [x|x], b as [y|y]; unfold py_mul; try apply H.
  now rewrite Z.mul_comm.
Qed.

(** X8: of the two pool fields of a Swimming record only the product
    counts: exchanging the pool length and the lap count changes neither
    the mean speed nor the calories, whether they are ints or floats. *)
Theorem swimming_pool_fields_commute (a d w l c : number) :
  snd (get_mean_speed (Swimming a d w l c))
  = snd (get_mean_speed (Swimming a d w c l)) /\
  snd (get_spent_calories (Swimming a d w l c))
  = snd (get_spent_calories (Swimming a d w c l)).
Proof.
  rewrite !Swimming_get_mean_speed_eq, !Swimming_get_spent_calories_eq.
  cbn [snd]. unfold Spec.swimming_calories, Spec.swimming_mean_speed_kmh.
  assert (H : Spec.lift2 py_mul (Spec.val l) (Spec.val c)
              = Spec.lift2 py_mul (Spec.val c) (Spec.val l)).
  { unfold Spec.lift2, Spec.val. cbn [bind]. apply py_mul_comm. }
  now rewrite H.
Qed.

(** *** Its calories are not negative *)

Lemma binary_round_nonneg (m : positive) (e : Z) :
  F64.nonneg (binary_round prec emax false m e) = true.
Proof.
  unfold binary_round.
  destruct (shl_align m e _) as [mz ez]. now apply round_aux_nonneg.
Qed.

Lemma fadd_nonneg (x y : spec_float) :
  F64.nonneg x = true -> F64.nonneg y = true ->
  F64.nonneg (F64.fadd x y) = true.
Proof.
  intros Hx Hy. apply nonneg_cases in Hx, Hy.
  destruct x as [sx|sx| |sx mx ex], y as [sy|sy| |sy my ey];
    try contradiction; subst; try (apply nonneg_cases; cbn; auto; fail).
  - destruct sx, sy; reflexivity.
  - unfold F64.fadd, SFadd. cbn [cond_Zopp].
    destruct (shl_align mx ex (Z.min ex ey)) as [mx' ex'].
    destruct (shl_align my ey (Z.min ex ey)) as [my' ey']. cbn [fst].
    apply binary_round_nonneg.
Qed.

Lemma fmul_nonneg_positive (x : spec_float) (m : positive) (e : Z) :
  F64.nonneg x = true ->
  F64.nonneg (F64.fmul x (S754_finite false m e)) = true.
Proof.
  intros Hx. apply nonneg_cases in Hx.
  destruct x as [sx|sx| |sx mx ex]; try contradiction; subst;
    try (apply nonneg_cases; cbn; auto; fail).
  unfold F64.fmul, SFmul. cbn [xorb]. now apply round_aux_nonneg.
Qed.

Lemma mul_positive_nonneg (x : spec_float) (n : number) :
  F64.nonneg x = true -> positive_finite n = true ->
  exists y, py_mul (PyFloat x) n = Ok (PyFloat y) /\ F64.nonneg y = true.
Proof.
  intros Hx Hn. rewrite py_mul_float_l.
  destruct (positive_finite_as_float n Hn) as (m & e & ->). cbn [bind].
  eexists. split; [reflexivity |]. now apply fmul_nonneg_positive.
Qed.

(** X9: for a Swimming record with a positive finite duration and
    weight and non-negative finite pool fields, [get_spent_calories]
    returns a float that is [>= 0]. *)
Theorem swimming_calories_nonneg (a d w l c : number) :
  positive_finite d = true -> positive_finite w = true ->
  valid_pool (Swimming a d w l c) = true ->
  exists kcal : spec_float,
    get_spent_calories (Swimming a d w l c)
    = (Swimming a d w l c, Ok (PyFloat kcal)) /\
    F64.nonneg kcal = true.
Proof.
  intros Hd Hw Hp. cbn [valid_pool] in Hp.
  apply andb_true_iff in Hp as [Hp Hf]. apply andb_true_iff in Hp as [Hl Hc].
  destruct (pool_km_nonneg l c Hl Hc Hf) as (y & Ey & Ny).
  destruct (div_positive_nonneg y d Ny Hd) as (v & Ev & Nv).
  rewrite Swimming_get_spent_calories_eq. spec_expr.
  destruct (py_mul l c) as [x|]; cbn [bind] in *; [| discriminate Ey].
  rewrite Ey. cbn [bind]. rewrite Ev. cbn [bind].
  rewrite py_add_float_l. cbn [as_float bind].
  assert (N1 : F64.nonneg (F64.fadd v (flt 1.1)) = true)
    by (apply fadd_nonneg; [assumption | reflexivity]).
  destruct (mul_positive_nonneg _ (PyInt 2) N1 eq_refl) as (x2 & -> & N2).
  cbn [bind].
  destruct (mul_positive_nonneg _ w N2 Hw) as (kcal & -> & N3).
  now exists kcal.
Qed.

(** ** An instance of the base class itself *)

Lemma Bare_get_distance_eq (self : Bare.t) :
  Bare.get_distance self
  = (self, Spec.distance_km (PyFloat (flt 0.65)) (Bare.action self)).
Proof.
  unfold Bare.get_distance, Spec.distance_km. run_method; reflexivity.
Qed.

Lemma Bare_get_mean_speed_eq (self : Bare.t) :
  Bare.get_mean_speed self
  = (self, Spec.mean_speed_kmh (Bare.action self) (Bare.duration self)).
Proof.
  unfold Bare.get_mean_speed, Spec.mean_speed_kmh.
  unfold mbind at 1. rewrite Bare_get_distance_eq.
  run_method; reflexivity.
Qed.

Lemma Bare_show_training_info_eq (self : Bare.t) :
  Bare.show_training_info self
  = (self,
     (dist <- Spec.distance_km (PyFloat (flt 0.65)) (Bare.action self) ;;
      v <- py_truediv dist (Bare.duration self) ;;
      Ok (Bare.BuildInfo "Training" (Bare.duration self) dist v None))%py).
Proof.
  unfold Bare.show_training_info.
  unfold mbind at 1 2, attr at 1. unfold mbind at 1.
  rewrite Bare_get_distance_eq.
  destruct (Spec.distance_km (PyFloat (flt 0.65)) (Bare.action self))
    as [dist|e] eqn:Ed; cbn [bind]; [| reflexivity].
  unfold mbind at 1. rewrite Bare_get_mean_speed_eq.
  unfold Spec.mean_speed_kmh, Spec.lift2 at 1. rewrite Ed.
  unfold Spec.val. cbn [bind].
  destruct (py_truediv dist (Bare.duration self)); reflexivity.
Qed.

(** X10: an instance of [Training] itself never gets a summary printed:
    its [get_spent_calories] returns None whatever the fields are, and
    [main] ends in an exception with the output as it was; when distance
    and speed can be computed the exception is the TypeError of
    formatting None, otherwise it is their ZeroDivisionError or
    OverflowError. *)
Theorem base_instance_never_prints (self : Bare.t) (out : list string) :
  Bare.get_spent_calories self = (self, Ok None) /\
  (exists e, Bare.main self out = (out, Raise e) /\
             (e = TypeError \/ e = ZeroDivisionError \/ e = OverflowError)) /\
  (is_ok (snd (Bare.get_mean_speed self)) = true ->
   Bare.main self out = (out, Raise TypeError)).
Proof.
  split; [reflexivity |].
  unfold Bare.main. rewrite Bare_show_training_info_eq, Bare_get_mean_speed_eq.
  cbn [snd]. unfold Spec.mean_speed_kmh, Spec.lift2 at 1, Spec.val.
  pose proof (distance_km_only_overflow (PyFloat (flt 0.65)) (Bare.action self))
    as Ho.
  destruct (Spec.distance_km (PyFloat (flt 0.65)) (Bare.action self))
    as [dist|e] eqn:Ed; cbn [bind is_ok].
  2:{ split; [| discriminate]. exists e. split; [reflexivity |].
      right. right. now apply Ho. }
  assert (Hf : exists fd, dist = PyFloat fd).
  { revert Ed. spec_expr. intros Ed. invert_binds. find_floats.
    eexists; reflexivity. }
  destruct Hf as [fd ->].
  pose proof (py_truediv_arith_only (PyFloat fd) (Bare.duration self)) as Ha.
  destruct (py_truediv (PyFloat fd) (Bare.duration self)) as [v|e] eqn:Ev;
    cbn [bind is_ok].
  2:{ split; [| discriminate]. exists e. split; [reflexivity |].
      destruct (Ha e eq_refl) as [-> | ->]; auto. }
  destruct (py_truediv_is_float _ _ _ Ev) as [fv ->].
  pose proof (py_truediv_float_fits _ _ _ Ev) as Hd.
  rewrite <- format_3f_is_ok in Hd.
  unfold Bare.get_message, mbind, attr, eval, mret.
  cbn [Bare.info_duration Bare.distance Bare.speed Bare.calories
       Bare.training_type].
  destruct (format_3f (Bare.duration self)) as [du|]; [| discriminate Hd].
  unfold format_3f. cbn [as_float bind Bare.format_3f_value].
  split; [| reflexivity].
  exists TypeError. auto.
Qed.

Lemma base_instance_never_prints_witness :
  Bare.main (Bare.Build (PyInt 15000) (PyInt 1) (PyInt 75)) []
  = ([], Raise TypeError).
Proof.
  apply (proj2 (proj2 (base_instance_never_prints
                         (Bare.Build (PyInt 15000) (PyInt 1) (PyInt 75)) []))).
  vm_compute. reflexivity.
Defined.

(** ** Canonical floats *)

Lemma digits2_pos_log2 (p : positive) :
  Zpos (digits2_pos p) = Z.log2 (Zpos p) + 1.
Proof.
  assert (H : forall q, digits2_pos q = Pos.size q)
    by (induction q; cbn; congruence).
  destruct p; cbn [Z.log2]; rewrite ?H; cbn [Pos.size]; lia.
Qed.

Lemma digits2_pos_bounds (p : positive) :
  2 ^ (Zpos (digits2_pos p) - 1) <= Zpos p < 2 ^ Zpos (digits2_pos p).
Proof.
  rewrite digits2_pos_log2.
  replace (Z.log2 (Zpos p) + 1 - 1) with (Z.log2 (Zpos p)) by lia.
  apply Z.log2_spec. lia.
Qed.

Lemma digits2_pos_le (p : positive) (k : Z) :
  Zpos p < 2 ^ k -> Zpos (digits2_pos p) <= k.
Proof.
  intros H. rewrite digits2_pos_log2.
  assert (0 <= k).
  { destruct (Z.leb_spec 0 k); [assumption |].
    rewrite Z.pow_neg_r in H by assumption. lia. }
  apply Z.log2_lt_pow2 in H; lia.
Qed.

Lemma fexp64 (x : Z) : fexp prec emax x = Z.max (x - 53) (-1074).
Proof. reflexivity. Qed.

Lemma shr_fexp_zero_shift (m e : Z) (l : location) :
  fexp prec emax (Zdigits2 m + e) - e = 0 ->
  shr_fexp prec emax m e l = (shr_record_of_loc m l, e).
Proof. intros H. unfold shr_fexp. rewrite H. reflexivity. Qed.

(** Rounding leaves a canonical mantissa and exponent alone. *)
Lemma round_aux_canonical (s : bool) (m : positive) (e : Z) :
  bounded prec emax m e = true ->
  binary_round_aux prec emax s (Zpos m) e loc_Exact = S754_finite s m e.
Proof.
  unfold bounded, canonical_mantissa. intros H.
  apply andb_true_iff in H as [Hc Hb]. apply Z.eqb_eq in Hc.
  unfold binary_round_aux.
  rewrite shr_fexp_zero_shift by (cbn [Zdigits2]; lia).
  cbn [shr_record_of_loc shr_m loc_of_shr_record round_nearest_even].
  rewrite shr_fexp_zero_shift by (cbn [Zdigits2]; lia).
  cbn [shr_record_of_loc shr_m]. now rewrite Hb.
Qed.

Lemma binary_round_canonical (s : bool) (m : positive) (e : Z) :
  bounded prec emax m e = true ->
  binary_round prec emax s m e = S754_finite s m e.
Proof.
  intros H. unfold binary_round, shl_align.
  assert (Hc : fexp prec emax (Zpos (digits2_pos m) + e) - e = 0).
  { unfold bounded, canonical_mantissa in H.
    apply andb_true_iff in H as [Hc _]. apply Z.eqb_eq in Hc. lia. }
  rewrite Hc. now apply round_aux_canonical.
Qed.

Lemma Zpos_iter_xO (p k : positive) :
  Zpos (Pos.iter xO p k) = Zpos p * 2 ^ Zpos k.
Proof.
  induction k as [|k IH] using Pos.peano_ind.
  - cbn. lia.
  - rewrite Pos.iter_succ, Pos2Z.inj_succ, Z.pow_succ_r by lia.
    rewrite Pos2Z.inj_xO, IH. lia.
Qed.

(** *** An int in a field of the message *)

(** An int of at most 53 bits is a float as it is. *)
Lemma binary_round_small_int (s : bool) (p : positive) :
  Zpos p < 2 ^ 53 ->
  exists m e, binary_round prec emax s p 0 = S754_finite s m e /\
              e <= 0 /\ Zpos m = Zpos p * 2 ^ (- e).
Proof.
  intros Hp. pose proof (digits2_pos_le p 53 Hp) as Hd.
  unfold binary_round, shl_align. rewrite fexp64.
  replace (Z.max (Zpos (digits2_pos p) + 0 - 53) (-1074) - 0)
    with (Zpos (digits2_pos p) - 53) by lia.
  destruct (Zpos (digits2_pos p) - 53) as [|k|k] eqn:Ek; [| lia |].
  - exists p, 0. rewrite round_aux_canonical.
    + split; [reflexivity | split; [lia |]]. cbn. lia.
    + unfold bounded, canonical_mantissa. rewrite fexp64.
      apply andb_true_iff. split; [apply Z.eqb_eq; lia | reflexivity].
  - exists (Pos.iter xO p k), (Z.max (Zpos (digits2_pos p) + 0 - 53) (-1074)).
    replace (Z.max (Zpos (digits2_pos p) + 0 - 53) (-1074)) with (Zneg k)
      by lia.
    rewrite round_aux_canonical.
    + split; [reflexivity | split; [lia |]]. apply Zpos_iter_xO.
    + unfold bounded, canonical_mantissa. rewrite fexp64, digits2_pos_iter_xO.
      apply andb_true_iff. split; [apply Z.eqb_eq; lia | reflexivity].
Qed.

Lemma thousandths_of_int (m : positive) (e n : Z) :
  e <= 0 -> Zpos m = n * 2 ^ (- e) -> thousandths m e = n * 1000.
Proof.
  intros He Hm. unfold thousandths.
  destruct (Z.leb_spec 0 e) as [H0|H0].
  - assert (e = 0) by lia. subst e. rewrite Z.shiftl_0_r, Hm. cbn. lia.
  - rewrite Z.shiftl_1_l. unfold round_half_even.
    assert (Hp : 0 < 2 ^ (- e)) by (apply Z.pow_pos_nonneg; lia).
    replace (Zpos m * 1000) with (n * 1000 * 2 ^ (- e)) by lia.
    rewrite Z.div_mul, Z.mod_mul by lia.
    cbn [Z.mul]. destruct (Z.compare_spec 0 (2 ^ (- e))); lia.
Qed.

Lemma fixed3_of_thousand (n : Z) :
  0 <= n -> fixed3 (n * 1000) = (decimal n ++ ".000")%string.
Proof.
  intros Hn. unfold fixed3.
  rewrite Z.div_mul, Z.mod_mul by lia. reflexivity.
Qed.

(** X11: an int field of less than 54 bits is shown in the summary as
    its decimal digits followed by a point and three zeros, with a
    minus sign before it when it is negative. *)
Theorem int_field_is_shown_exactly (z : Z) :
  Z.abs z < 2 ^ 53 ->
  format_3f (PyInt z)
  = Ok (sign_string (z <? 0)%Z ++ decimal (Z.abs z) ++ ".000")%string.
Proof.
  intros Hz. unfold format_3f, as_float, int_to_float, F64.of_Z,
    binary_normalize.
  destruct z as [|p|p]; [reflexivity | |].
  - destruct (binary_round_small_int false p Hz) as (m & e & -> & He & Hm).
    cbn [bind float_format_3f Z.ltb Z.compare Z.abs].
    rewrite (thousandths_of_int m e (Zpos p) He Hm).
    rewrite fixed3_of_thousand by apply Pos2Z.is_nonneg. reflexivity.
  - destruct (binary_round_small_int true p Hz) as (m & e & -> & He & Hm).
    cbn [bind float_format_3f Z.ltb Z.compare Z.abs].
    rewrite (thousandths_of_int m e (Zpos p) He Hm).
    rewrite fixed3_of_thousand by apply Pos2Z.is_nonneg. reflexivity.
Qed.

Lemma int_field_is_shown_exactly_witness :
  format_3f (PyInt 15000) = Ok "15000.000"%string.
Proof.
  refine (eq_trans (int_field_is_shown_exactly 15000 _) _); reflexivity.
Defined.

(** ** The results of the float operations are canonical *)

Lemma shr_fexp_exponent (m e : Z) (l : location) :
  snd (shr_fexp prec emax m e l)
  = Z.max e (fexp prec emax (Zdigits2 m + e)).
Proof.
  unfold shr_fexp, shr.
  destruct (fexp prec emax (Zdigits2 m + e) - e) eqn:E; cbn [snd]; lia.
Qed.

Lemma shr_1_zero (mrs : shr_record) :
  shr_m mrs = 0 -> shr_m (shr_1 mrs) = 0.
Proof. destruct mrs as [m r s]. cbn. now intros ->. Qed.

Lemma iter_shr_1_zero (k : nat) (mrs : shr_record) :
  shr_m mrs = 0 -> shr_m (Nat.iter k shr_1 mrs) = 0.
Proof.
  intros H. induction k as [|k IH]; [assumption |].
  cbn [Nat.iter]. now apply shr_1_zero.
Qed.

Lemma iter_shr_1_out (k : nat) (mrs : shr_record) (p : positive) :
  shr_m mrs = Zpos p -> Zpos (digits2_pos p) <= Z.of_nat k ->
  shr_m (Nat.iter k shr_1 mrs) = 0.
Proof.
  revert mrs p. induction k as [|k IH]; intros mrs p Hm Hk; [lia |].
  rewrite Nat.iter_succ_r.
  destruct mrs as [m r s]. cbn [shr_m] in Hm. subst m.
  destruct p as [p|p|]; cbn [shr_1].
  - apply (IH _ p); [reflexivity | cbn [digits2_pos] in Hk; lia].
  - apply (IH _ p); [reflexivity | cbn [digits2_pos] in Hk; lia].
  - now apply iter_shr_1_zero.
Qed.

(** Shifting to the exponent of the format: the mantissa that is left
    is zero, or canonical at the new exponent. *)
Lemma shr_fexp_canonical (m e : Z) (l : location) :
  0 <= m -> e <= fexp prec emax (Zdigits2 m + e) ->
  exists mrs e',
    shr_fexp prec emax m e l = (mrs, e') /\
    -1074 <= e' /\
    (shr_m mrs = 0 /\ e' <= -1074 \/
     exists p, shr_m mrs = Zpos p /\
               e' = fexp prec emax (Zpos (digits2_pos p) + e')).
Proof.
  intros Hm He.
  pose proof (shr_fexp_exponent m e l) as Hx.
  destruct (shr_fexp prec emax m e l) as [mrs e'] eqn:E. cbn [snd] in Hx.
  exists mrs, e'. split; [reflexivity |].
  rewrite fexp64 in *. split; [lia |].
  destruct m as [|p|p]; [| | lia].
  - left. split; [| cbn [Zdigits2] in *; lia].
    revert E. unfold shr_fexp, shr.
    destruct (fexp prec emax (Zdigits2 0 + e) - e) as [|q|q];
      intros E; injection E as <- _; try apply shr_m_of_loc.
    rewrite iter_pos_nat. apply iter_shr_1_zero, shr_m_of_loc.
  - cbn [Zdigits2] in *.
    destruct (Z.ltb_spec (-1074) (Zpos (digits2_pos p) + e)) as [Hd|Hd].
    + right.
      destruct (shr_fexp_positive prec emax prec64_pos p e l)
        as (mrs1 & e1 & p' & E1 & Hs & Hdig); [rewrite emin64; exact Hd |].
      rewrite E in E1. injection E1 as <- <-.
      exists p'. split; [assumption |]. rewrite fexp64. lia.
    + left. split; [| lia].
      revert E. unfold shr_fexp, shr. cbn [Zdigits2]. rewrite fexp64.
      destruct (Z.max (Zpos (digits2_pos p) + e - 53) (-1074) - e)
        as [|q|q] eqn:En; [lia | | lia].
      intros E; injection E as <- _.
      rewrite iter_pos_nat.
      apply (iter_shr_1_out _ _ p); [apply shr_m_of_loc |].
      rewrite positive_nat_Z. lia.
Qed.

(** Rounding returns a valid float whenever the mantissa it is given has
    at least the digits of the format. *)
Lemma round_aux_valid (s : bool) (mx ex : Z) (lx : location) :
  0 <= mx -> ex <= fexp prec emax (Zdigits2 mx + ex) ->
  valid_binary (binary_round_aux prec emax s mx ex lx) = true.
Proof.
  intros Hm He. unfold binary_round_aux.
  destruct (shr_fexp_canonical mx ex lx Hm He)
    as (mrs' & e' & -> & Hmin & Hc).
  pose proof (round_nearest_even_ge (shr_m mrs') (loc_of_shr_record mrs'))
    as Hr.
  assert (H1 : 0 <= round_nearest_even (shr_m mrs') (loc_of_shr_record mrs')
               /\ e' <= fexp prec emax
                          (Zdigits2 (round_nearest_even (shr_m mrs')
                                       (loc_of_shr_record mrs')) + e')).
  { rewrite fexp64 in *. destruct Hc as [[H0 Hle]|(p & Hp & Hcan)].
    - rewrite H0 in *. split; [lia |].
      destruct (round_nearest_even 0 (loc_of_shr_record mrs')) as [|q|q];
        cbn [Zdigits2]; lia.
    - rewrite Hp in *. rewrite fexp64 in Hcan. split; [lia |].
      destruct (round_nearest_even_positive p (loc_of_shr_record mrs'))
        as (p1 & Hp1 & Hd1).
      rewrite Hp1. cbn [Zdigits2]. lia. }
  set (m1 := round_nearest_even (shr_m mrs') (loc_of_shr_record mrs')) in *.
  destruct H1 as [H1 H2].
  destruct (shr_fexp_canonical m1 e' loc_Exact H1 H2)
    as (mrs'' & e'' & -> & Hmin' & Hc').
  destruct Hc' as [[H0 _]|(p & Hp & Hcan)].
  - rewrite H0. reflexivity.
  - rewrite Hp. destruct (Z.leb_spec e'' (emax - prec)) as [Hb|Hb];
      [| reflexivity].
    cbn [SpecFloat.valid_binary]. unfold bounded, canonical_mantissa.
    apply andb_true_iff. split; [apply Z.eqb_eq; lia | apply Z.leb_le; lia].
Qed.

Lemma binary_round_valid (s : bool) (m : positive) (e : Z) :
  valid_binary (binary_round prec emax s m e) = true.
Proof.
  unfold binary_round, shl_align.
  destruct (fexp prec emax (Zpos (digits2_pos m) + e) - e) as [|d|d] eqn:Ed;
    apply round_aux_valid; try lia; cbn [Zdigits2];
    rewrite ?digits2_pos_iter_xO; rewrite ?fexp64 in *; lia.
Qed.

Lemma binary_normalize_valid (z e : Z) (s : bool) :
  valid_binary (binary_normalize prec emax z e s) = true.
Proof. destruct z; [reflexivity | apply binary_round_valid ..]. Qed.

Lemma bounded_cases (m : positive) (e : Z) :
  bounded prec emax m e = true ->
  -1074 <= e <= 971 /\ Zpos (digits2_pos m) <= 53 /\
  (Zpos (digits2_pos m) = 53 \/ e = -1074).
Proof.
  unfold bounded, canonical_mantissa. rewrite fexp64. intros H.
  apply andb_true_iff in H as [Hc Hb].
  apply Z.eqb_eq in Hc. apply Z.leb_le in Hb.
  change (emax - prec) with 971 in Hb. lia.
Qed.

Lemma digits2_pos_mul (a b : positive) :
  Zpos (digits2_pos a) + Zpos (digits2_pos b) - 1
  <= Zpos (digits2_pos (a * b)).
Proof.
  rewrite !digits2_pos_log2, Pos2Z.inj_mul.
  pose proof (Z.log2_mul_below (Zpos a) (Zpos b)). lia.
Qed.

Lemma fmul_valid (x y : spec_float) :
  valid_binary x = true -> valid_binary y = true ->
  valid_binary (F64.fmul x y) = true.
Proof.
  destruct x as [sx|sx| |sx mx ex], y as [sy|sy| |sy my ey];
    try reflexivity.
  cbn [valid_binary]. intros Hx Hy.
  apply bounded_cases in Hx, Hy.
  unfold F64.fmul, SFmul. apply round_aux_valid; [lia |].
  cbn [Zdigits2]. rewrite fexp64.
  pose proof (digits2_pos_mul mx my). lia.
Qed.

Lemma digits2_pos_div (a b q : positive) (r : Z) :
  Zpos a = Zpos b * Zpos q + r -> 0 <= r < Zpos b ->
  Zpos (digits2_pos a) - Zpos (digits2_pos b) <= Zpos (digits2_pos q).
Proof.
  intros Ha Hr.
  pose proof (digits2_pos_bounds a) as Ba.
  pose proof (digits2_pos_bounds b) as Bb.
  pose proof (digits2_pos_bounds q) as Bq.
  assert (H : 2 ^ (Zpos (digits2_pos a) - 1)
              < 2 ^ (Zpos (digits2_pos q) + Zpos (digits2_pos b))).
  { rewrite Z.pow_add_r by lia.
    apply Z.le_lt_trans with (Zpos a); [lia |].
    apply Z.lt_le_trans with (Zpos b * (Zpos q + 1)); [lia |].
    rewrite Z.mul_comm. apply Z.mul_le_mono_nonneg; lia. }
  apply Z.pow_lt_mono_r_iff in H; lia.
Qed.

Lemma SFdiv_core_binary_digits (m1 m2 : positive) (e1 e2 : Z) :
  let '(q, e', _) := SFdiv_core_binary prec emax (Zpos m1) e1 (Zpos m2) e2 in
  0 <= q /\ e' <= fexp prec emax (Zdigits2 q + e').
Proof.
  unfold SFdiv_core_binary. cbn [Zdigits2]. rewrite fexp64.
  set (d1 := Zpos (digits2_pos m1)). set (d2 := Zpos (digits2_pos m2)).
  set (e' := Z.min (Z.max (d1 + e1 - (d2 + e2) - 53) (-1074)) (e1 - e2)).
  set (s := e1 - e2 - e').
  assert (Hs : 0 <= s) by (unfold s, e'; lia).
  set (m' := match s with
             | 0 => Zpos m1 | Zpos _ => Z.shiftl (Zpos m1) s | Zneg _ => 0
             end).
  assert (Hm' : m' = Zpos m1 * 2 ^ s).
  { unfold m'. destruct s as [|k|k]; [cbn; lia | | lia].
    apply Z.shiftl_mul_pow2. lia. }
  pose proof (Z_div_mod m' (Zpos m2) ltac:(lia)) as Hdiv.
  destruct (Z.div_eucl m' (Zpos m2)) as [q r]. destruct Hdiv as [Hq Hr].
  assert (H2s : 0 < 2 ^ s) by (apply Z.pow_pos_nonneg; lia).
  assert (Hq0 : 0 <= q) by nia.
  split; [assumption |].
  rewrite fexp64.
  destruct q as [|pq|pq]; [| | lia].
  - (* the quotient is zero: the result is below the smallest subnormal *)
    cbn [Zdigits2].
    pose proof (digits2_pos_bounds m1) as B1.
    pose proof (digits2_pos_bounds m2) as B2. fold d1 d2 in B1, B2.
    assert (H : 2 ^ (d1 - 1 + s) < 2 ^ d2).
    { rewrite Z.pow_add_r by (unfold d1; lia).
      apply Z.le_lt_trans with m'; [rewrite Hm'; nia | lia]. }
    apply Z.pow_lt_mono_r_iff in H; [| lia | unfold d2; lia].
    unfold s in H. unfold e' in *. lia.
  - cbn [Zdigits2].
    assert (Hex : exists pm, m' = Zpos pm /\
                             Zpos (digits2_pos pm) = d1 + s).
    { destruct s as [|k|k]; [| | lia].
      - exists m1. split; [rewrite Hm'; cbn; lia | unfold d1; lia].
      - exists (Pos.iter xO m1 k).
        split; [now rewrite Hm', Zpos_iter_xO |].
        rewrite digits2_pos_iter_xO. unfold d1. lia. }
    destruct Hex as (pm & Hpm & Hdm).
    pose proof (digits2_pos_div pm m2 pq r ltac:(rewrite <- Hpm; lia) Hr)
      as Hd.
    rewrite Hdm in Hd. unfold s in Hd. fold d2 in Hd. unfold e' in *. lia.
Qed.

Lemma fdiv_valid (x y : spec_float) :
  valid_binary (F64.fdiv x y) = true.
Proof.
  destruct x as [sx|sx| |sx mx ex], y as [sy|sy| |sy my ey];
    try reflexivity.
  unfold F64.fdiv, SFdiv.
  pose proof (SFdiv_core_binary_digits mx my ex ey) as H.
  destruct (SFdiv_core_binary prec emax (Zpos mx) ex (Zpos my) ey)
    as [[q e'] l].
  destruct H as [Hq He]. now apply round_aux_valid.
Qed.

Lemma as_float_valid (n : number) (f : spec_float) :
  match n with PyFloat x => valid_binary x = true | PyInt _ => True end ->
  as_float n = Ok f -> valid_binary f = true.
Proof.
  destruct n as [z|x]; cbn [as_float].
  - intros _. unfold int_to_float, F64.of_Z.
    pose proof (binary_normalize_valid z 0 false) as H.
    destruct (binary_normalize prec emax z 0 false); intros E;
      try discriminate E; injection E as <-; exact H.
  - intros H E. now injection E as <-.
Qed.

(** ** Floor division of a smaller by a larger float *)

Lemma finite_lt (mx my : positive) (ex ey : Z) :
  bounded prec emax mx ex = true -> bounded prec emax my ey = true ->
  SFltb (S754_finite false mx ex) (S754_finite false my ey) = true ->
  ex <= ey /\ Zpos mx < Zpos my * 2 ^ (ey - ex).
Proof.
  intros Hx Hy. apply bounded_cases in Hx, Hy.
  unfold SFltb, SFcompare.
  destruct (Z.compare_spec ex ey) as [->|Hlt|Hgt]; try discriminate.
  - rewrite Z.sub_diag. change (Pos.compare_cont Eq mx my) with (mx ?= my)%positive.
    destruct (Pos.compare_spec mx my); try discriminate. intros _.
    split; [lia |]. cbn. lia.
  - intros _. split; [lia |].
    pose proof (digits2_pos_bounds mx) as Bx.
    pose proof (digits2_pos_bounds my) as By.
    assert (Hd : Zpos (digits2_pos my) = 53) by lia. rewrite Hd in By.
    assert (Zpos mx < 2 ^ 53).
    { apply Z.lt_le_trans with (2 ^ Zpos (digits2_pos mx)); [lia |].
      apply Z.pow_le_mono_r; lia. }
    assert (2 * 1 <= 2 ^ (ey - ex)).
    { replace (ey - ex) with (Z.succ (ey - ex - 1)) by lia.
      rewrite Z.pow_succ_r by lia.
      pose proof (Z.pow_pos_nonneg 2 (ey - ex - 1)). lia. }
    change (2 ^ (53 - 1)) with 4503599627370496 in By.
    change (2 ^ 53) with 9007199254740992 in *. nia.
Qed.

Lemma fmod_smaller (x y : spec_float) (mx : positive) (ex : Z) :
  x = S754_finite false mx ex ->
  valid_binary x = true -> valid_binary y = true ->
  SFltb x y = true ->
  F64.fmod x y = x /\ F64.signbit y = false /\ F64.is_zero y = false /\
  F64.is_nan y = false.
Proof.
  intros -> Hx Hy Hlt. cbn [SpecFloat.valid_binary] in Hx.
  destruct y as [sy|sy| |sy my ey]; try discriminate Hlt.
  - destruct sy; [discriminate Hlt |]. repeat split.
  - destruct sy; [discriminate Hlt |].
    cbn [SpecFloat.valid_binary] in Hy.
    destruct (finite_lt mx my ex ey Hx Hy Hlt) as [Hle Hm].
    repeat split. unfold F64.fmod.
    rewrite Z.min_l by assumption. rewrite Z.sub_diag, Z.shiftl_0_r.
    rewrite Z.shiftl_mul_pow2 by lia.
    rewrite Z.mod_small by lia.
    cbn [cond_Zopp binary_normalize]. now apply binary_round_canonical.
Qed.

Lemma fsub_diag (s : bool) (m : positive) (e : Z) :
  F64.fsub (S754_finite s m e) (S754_finite s m e) = S754_zero false.
Proof.
  unfold F64.fsub, SFsub. rewrite Z.sub_diag. reflexivity.
Qed.

(** [x // y] is [0.0] when [0 < x < y]. *)
Lemma float_floor_div_smaller (x y : spec_float) (mx : positive) (ex : Z) :
  x = S754_finite false mx ex ->
  valid_binary x = true -> valid_binary y = true ->
  SFltb x y = true ->
  float_floor_div x y = Ok (S754_zero false).
Proof.
  intros Ex Hx Hy Hlt.
  destruct (fmod_smaller x y mx ex Ex Hx Hy Hlt) as (Hmod & Hs & Hz & Hn).
  unfold float_floor_div. rewrite Hz, Hmod. subst x. rewrite fsub_diag.
  assert (Hdiv : F64.fdiv (S754_zero false) y = S754_zero false).
  { destruct y as [sy|sy| |sy my ey]; try discriminate; cbn in Hs; now subst. }
  rewrite Hdiv.
  assert (Hy0 : SFltb y F64.pzero = false).
  { destruct y as [sy|sy| |sy my ey]; try discriminate; cbn in Hs; now subst. }
  rewrite Hy0. cbn [F64.truthy F64.is_zero negb xorb SFltb SFcompare F64.pzero].
  unfold F64.zero_with_sign_of. do 2 f_equal.
  destruct y as [sy|sy| |sy my ey]; try discriminate; cbn in Hs; subst sy.
  - reflexivity.
  - unfold F64.fdiv, SFdiv. cbn [xorb].
    pose proof (SFdiv_core_binary_nonneg (Zpos mx) ex (Zpos my) ey) as Hq.
    destruct (SFdiv_core_binary prec emax (Zpos mx) ex (Zpos my) ey)
      as [[q e'] l]. cbn [fst] in Hq.
    pose proof (binary_round_aux_sign prec emax false q e' l) as Hsg.
    destruct (binary_round_aux prec emax false q e' l); cbn [F64.signbit];
      try (apply Hsg, Hq; lia).
    exfalso. apply Hsg, Hq; lia.
Qed.

(** What the library returns for the square of a double is a double,
    and is not negative. *)
Lemma faithful_square_valid (up : bool) (m : positive) (e : Z) :
  bounded prec emax m e = true ->
  valid_binary (faithful_square up m e) = true /\
  match faithful_square up m e with
  | S754_zero s | S754_infinity s | S754_finite s _ _ => s = false
  | S754_nan => False
  end.
Proof.
  intros Hb. apply bounded_cases in Hb. unfold faithful_square.
  destruct (shr_fexp_canonical (Zpos (m * m)) (e + e) loc_Exact)
    as (mrs & e' & -> & Hmin & Hc).
  { lia. }
  { cbn [Zdigits2]. rewrite fexp64. pose proof (digits2_pos_mul m m). lia. }
  set (m' := match loc_of_shr_record mrs with
             | loc_Exact => shr_m mrs
             | loc_Inexact _ => if up then shr_m mrs + 1 else shr_m mrs
             end).
  assert (Hm' : m' = shr_m mrs \/ m' = shr_m mrs + 1)
    by (unfold m'; destruct (loc_of_shr_record mrs), up; auto).
  assert (H : 0 <= m' /\ e' <= fexp prec emax (Zdigits2 m' + e')).
  { rewrite fexp64. destruct Hc as [[H0 Hle]|(p & Hp & Hcan)].
    - rewrite H0 in Hm'.
      destruct Hm' as [-> | ->]; cbn [Zdigits2 Z.add digits2_pos]; lia.
    - rewrite Hp in Hm'. rewrite fexp64 in Hcan. destruct Hm' as [-> | ->].
      + cbn [Zdigits2]. lia.
      + replace (Zpos p + 1) with (Zpos (Pos.succ p)) by lia.
        cbn [Zdigits2]. pose proof (digits2_pos_succ p). lia. }
  destruct H as [H1 H2]. split.
  - now apply round_aux_valid.
  - exact (binary_round_aux_sign prec emax false m' e' loc_Exact H1).
Qed.

(** The square of a speed is canonical, and is not negative. *)
Lemma float_pow2_valid (v v2 : spec_float) :
  valid_binary v = true -> float_pow2 v = Ok v2 ->
  valid_binary v2 = true /\
  (v2 = S754_zero false \/ v2 = S754_infinity false \/ v2 = S754_nan \/
   exists m e, v2 = S754_finite false m e).
Proof.
  intros Hv. destruct v as [s|s| |s m e]; cbn [float_pow2].
  - intros E; injection E as <-. auto.
  - intros E; injection E as <-. auto.
  - intros E; injection E as <-. auto 6.
  - destruct (faithful_square_valid (pow_rounds_up (S754_finite false m e))
                m e Hv) as [Hval Hsg].
    destruct (faithful_square (pow_rounds_up (S754_finite false m e)) m e)
      as [s'|s'| |s' m' e']; intros E; try discriminate E;
      injection E as <-; subst; split; eauto 8.
Qed.

Lemma float_floor_div_zero (y : spec_float) :
  SFltb (S754_zero false) y = true ->
  float_floor_div (S754_zero false) y = Ok (S754_zero false).
Proof.
  destruct y as [sy|[]| |[] my ey]; try discriminate; intros _; reflexivity.
Qed.

Lemma mean_speed_valid (a d : number) (v : spec_float) :
  Spec.mean_speed_kmh a d = Ok (PyFloat v) -> valid_binary v = true.
Proof.
  spec_expr. intros H. invert_binds. find_floats.
  rewrite py_truediv_float_l in H.
  destruct (as_float d) as [fd|]; cbn [bind] in H; [| discriminate H].
  unfold float_div in H. destruct (F64.is_zero fd); [discriminate H |].
  cbn [bind] in H. injection H as <-. apply fdiv_valid.
Qed.

Lemma fadd_zero_term (c fw : spec_float) (mc : positive) (ec : Z) :
  c = S754_finite false mc ec -> F64.is_finite fw = true ->
  F64.fadd (F64.fmul c fw) (F64.fmul (S754_zero false) fw) = F64.fmul c fw.
Proof.
  intros -> Hf. destruct fw as [sw|sw| |sw m e]; try discriminate Hf.
  - destruct sw; reflexivity.
  - unfold F64.fmul, SFmul. cbn [xorb].
    pose proof (binary_round_aux_sign prec emax sw (Zpos (mc * m)) (ec + e)
                  loc_Exact ltac:(lia)) as Hs.
    destruct (binary_round_aux prec emax sw (Zpos (mc * m)) (ec + e) loc_Exact)
      as [s|s| |s m' e']; try contradiction; subst s.
    + destruct sw; reflexivity.
    + reflexivity.
    + reflexivity.
Qed.

(** X12: a walker whose squared mean speed is below the height gets
    nothing from the speed term: the floor division is zero and
    [get_spent_calories] returns [0.035 * weight * duration * 60],
    whatever the action count, provided the weight is finite. *)
Theorem slow_walker_calories (a d w h : number) (v v2 fh fw : spec_float) :
  snd (get_mean_speed (SportsWalking a d w h)) = Ok (PyFloat v) ->
  float_pow2 v = Ok v2 ->
  canonical h = true -> as_float h = Ok fh ->
  SFltb v2 fh = true ->
  as_float w = Ok fw -> F64.is_finite fw = true ->
  get_spent_calories (SportsWalking a d w h)
  = (SportsWalking a d w h, weight_term_calories w d).
Proof.
  intros Hv Hsq Hh Eh Hlt Ew Hw.
  rewrite get_mean_speed_eq in Hv. cbn [snd action duration] in Hv.
  pose proof (mean_speed_valid a d v Hv) as Vv.
  destruct (float_pow2_valid v v2 Vv Hsq) as [V2 C2].
  assert (Vh : valid_binary fh = true).
  { apply (as_float_valid h); [| assumption].
    destruct h; [exact I | exact Hh]. }
  assert (Hfloor : float_floor_div v2 fh = Ok (S754_zero false)).
  { destruct C2 as [->|[->|[->|(m & e & ->)]]].
    - now apply float_floor_div_zero.
    - destruct fh as [?|[]| |[]]; discriminate Hlt.
    - discriminate Hlt.
    - now apply (float_floor_div_smaller _ _ m e). }
  rewrite SportsWalking_get_spent_calories_eq. f_equal.
  unfold Spec.walking_calories, weight_term_calories. rewrite Hv.
  spec_expr.
  rewrite !py_mul_float_l, Ew. cbn [bind].
  unfold py_pow2. rewrite Hsq. cbn [bind].
  rewrite py_floordiv_float_l, Eh. cbn [bind]. rewrite Hfloor. cbn [bind].
  rewrite py_mul_float_l. cbn [as_float bind].
  change (F64.fmul (S754_zero false) (flt 0.029)) with (S754_zero false).
  rewrite py_mul_float_l, Ew. cbn [bind].
  rewrite py_add_float_l. cbn [as_float bind].
  now rewrite (fadd_zero_term _ fw _ _ eq_refl Hw).
Qed.

(** ** Running: a slow run *)

Lemma sign_set_cases (f : spec_float) :
  sign_set f = true <->
  match f with
  | S754_zero s | S754_infinity s | S754_finite s _ _ => s = true
  | S754_nan => False
  end.
Proof. destruct f as [[]|[]| |[] m e]; cbn; intuition congruence. Qed.

Lemma sign_set_nonpositive (f : spec_float) :
  sign_set f = true -> SFleb f F64.pzero = true.
Proof. destruct f as [[]|[]| |[] m e]; cbn; congruence. Qed.

Lemma round_aux_sign_set (mx ex : Z) (lx : location) :
  0 <= mx -> sign_set (binary_round_aux prec emax true mx ex lx) = true.
Proof.
  intros H. apply sign_set_cases.
  pose proof (binary_round_aux_sign prec emax true mx ex lx H) as Hs.
  destruct (binary_round_aux prec emax true mx ex lx); auto.
Qed.

Lemma fmul_sign_set (x : spec_float) (m : positive) (e : Z) :
  sign_set x = true -> sign_set (F64.fmul x (S754_finite false m e)) = true.
Proof.
  intros Hx. apply sign_set_cases in Hx.
  destruct x as [sx|sx| |sx mx ex]; try contradiction; subst;
    try reflexivity.
  unfold F64.fmul, SFmul. cbn [xorb]. now apply round_aux_sign_set.
Qed.

Lemma fdiv_sign_set (x : spec_float) (m : positive) (e : Z) :
  sign_set x = true -> sign_set (F64.fdiv x (S754_finite false m e)) = true.
Proof.
  intros Hx. apply sign_set_cases in Hx.
  destruct x as [sx|sx| |sx mx ex]; try contradiction; subst;
    try reflexivity.
  unfold F64.fdiv, SFdiv. cbn [xorb].
  pose proof (SFdiv_core_binary_nonneg (Zpos mx) ex (Zpos m) e) as Hq.
  destruct (SFdiv_core_binary prec emax (Zpos mx) ex (Zpos m) e)
    as [[mz ez] lz].
  cbn [fst] in Hq. apply round_aux_sign_set, Hq; lia.
Qed.

Lemma mul_positive_sign_set (x : spec_float) (n : number) :
  sign_set x = true -> positive_finite n = true ->
  exists y, py_mul (PyFloat x) n = Ok (PyFloat y) /\ sign_set y = true.
Proof.
  intros Hx Hn. rewrite py_mul_float_l.
  destruct (positive_finite_as_float n Hn) as (m & e & ->). cbn [bind].
  eexists. split; [reflexivity |]. now apply fmul_sign_set.
Qed.

Lemma div_1000_sign_set (x : spec_float) :
  sign_set x = true ->
  exists y, py_truediv (PyFloat x) (PyInt 1000) = Ok (PyFloat y) /\
            sign_set y = true.
Proof.
  intros Hx. rewrite py_truediv_float_l.
  destruct as_float_1000 as (m & e & ->). cbn [bind float_div F64.is_zero].
  eexists. split; [reflexivity |]. now apply fdiv_sign_set.
Qed.

Lemma shl_align_same (m : positive) (e : Z) : shl_align m e e = (m, e).
Proof. unfold shl_align. now rewrite Z.sub_diag. Qed.

Lemma shl_align_value (m : positive) (e e' : Z) :
  e' <= e ->
  Zpos (fst (shl_align m e e')) = Zpos m * 2 ^ (e - e').
Proof.
  intros H. unfold shl_align.
  destruct (e' - e) as [|d|d] eqn:Ed; cbn [fst]; [| lia |].
  - replace (e - e') with 0 by lia. cbn. lia.
  - rewrite Zpos_iter_xO. f_equal. f_equal. lia.
Qed.

(** Subtracting a larger positive float leaves a negative one. *)
Lemma fsub_larger_sign_set (x c : spec_float) (mc : positive) (ec : Z) :
  c = S754_finite false mc ec ->
  valid_binary x = true -> valid_binary c = true ->
  SFltb x c = true ->
  sign_set (F64.fsub x c) = true.
Proof.
  intros -> Vx Vc Hlt.
  destruct x as [sx|sx| |sx mx ex]; try discriminate Hlt.
  - reflexivity.
  - destruct sx; [reflexivity | discriminate Hlt].
  - cbn [SpecFloat.valid_binary] in Vx, Vc.
    pose proof (bounded_cases _ _ Vx) as Bx.
    pose proof (bounded_cases _ _ Vc) as Bc.
    unfold F64.fsub, SFsub.
    set (ez := Z.min ex ec).
    pose proof (shl_align_value mx ex ez ltac:(unfold ez; lia)) as Hx.
    pose proof (shl_align_value mc ec ez ltac:(unfold ez; lia)) as Hc.
    assert (Hneg : cond_Zopp sx (Zpos (fst (shl_align mx ex ez)))
                   - cond_Zopp false (Zpos (fst (shl_align mc ec ez))) < 0).
    { cbn [cond_Zopp]. destruct sx; cbn [cond_Zopp]; [lia |].
      destruct (finite_lt mx mc ex ec Vx Vc Hlt) as [Hle Hm].
      rewrite Hx, Hc. unfold ez. rewrite Z.min_l by assumption.
      rewrite Z.sub_diag. cbn [Z.pow]. lia. }
    destruct (cond_Zopp sx (Zpos (fst (shl_align mx ex ez)))
              - cond_Zopp false (Zpos (fst (shl_align mc ec ez))))
      as [|p|p]; [lia | lia |].
    cbn [binary_normalize]. apply sign_set_cases.
    pose proof (binary_round_nonzero prec emax prec64_pos true p ez) as Hr.
    rewrite emin64 in Hr.
    destruct (binary_round prec emax true p ez);
      first [apply Hr | exfalso; apply Hr]; unfold ez; lia.
Qed.

(** X13: a run so slow that [18 * mean_speed < 20] has calories that
    are not positive: with a positive finite weight and duration
    [get_spent_calories] of a Running record returns a float with its
    sign bit set, so negative, or [-0.0] when the product underflows. *)
Theorem slow_runner_calories_not_positive (a d w : number) (v : spec_float) :
  snd (get_mean_speed (Running a d w)) = Ok (PyFloat v) ->
  SFltb (F64.fmul (flt 18) v) (flt 20) = true ->
  positive_finite w = true -> positive_finite d = true ->
  exists kcal : spec_float,
    get_spent_calories (Running a d w) = (Running a d w, Ok (PyFloat kcal)) /\
    F64.signbit kcal = true /\ SFleb kcal F64.pzero = true.
Proof.
  intros Hv Hlt Hw Hd.
  rewrite get_mean_speed_eq in Hv. cbn [snd action duration] in Hv.
  pose proof (mean_speed_valid a d v Hv) as Vv.
  assert (V18 : valid_binary (F64.fmul (flt 18) v) = true)
    by (apply fmul_valid; [reflexivity | assumption]).
  pose proof (fsub_larger_sign_set (F64.fmul (flt 18) v) (flt 20) _ _
                eq_refl V18 eq_refl Hlt) as S2.
  rewrite Running_get_spent_calories_eq.
  unfold Spec.running_calories. rewrite Hv. spec_expr.
  rewrite py_mul_float_r. cbn [bind].
  change (as_float (PyInt 18)) with (Ok (flt 18)). cbn [bind].
  rewrite py_sub_float_l.
  change (as_float (PyInt 20)) with (Ok (flt 20)). cbn [bind].
  destruct (mul_positive_sign_set _ w S2 Hw) as (x3 & -> & S3). cbn [bind].
  destruct (div_1000_sign_set x3 S3) as (x4 & -> & S4). cbn [bind].
  destruct (mul_positive_sign_set _ d S4 Hd) as (x5 & -> & S5). cbn [bind].
  destruct (mul_positive_sign_set _ (PyInt 60) S5 eq_refl) as (x6 & -> & S6).
  exists x6. split; [reflexivity |].
  split; [| now apply sign_set_nonpositive].
  destruct x6; [exact S6 | exact S6 | discriminate S6 | exact S6].
Qed.

End Platform.

(** * The examples, on a C library

    The lemmas of this part are closed: each runs the program on one
    input, and so on one library, [pow_below].  Where the outcome goes
    through [pow], the lemma is stated on [pow_below] and on [pow_above],
    which between them return whatever a library may return for one
    argument. *)

#[local] Existing Instance pow_below.

(** The last bit of [pow] can decide the floor division, and with it
    the calories: two walkers whose squared speed lies between two
    doubles, the upper of which is the height.  (The [pow] of glibc 2.36
    returns the lower double for the first and the upper double for the
    second.) *)
Lemma walking_calories_depend_on_pow :
  (let self := SportsWalking (PyInt 900) (PyFloat (flt 1.56)) (PyInt 75)
                             (PyFloat (flt 0.14062499999999997)) in
   snd (get_spent_calories (libm := pow_below) self)
   = Ok (PyFloat (flt 245.70000000000005)) /\
   snd (get_spent_calories (libm := pow_above) self)
   = Ok (PyFloat (flt 449.2800000000001))) /\
  (let self := SportsWalking (PyInt 3613) (PyInt 1) (PyInt 75)
                             (PyFloat (flt 5.515217402500001)) in
   snd (get_spent_calories (libm := pow_below) self)
   = Ok (PyFloat (flt 157.50000000000003)) /\
   snd (get_spent_calories (libm := pow_above) self)
   = Ok (PyFloat (flt 288.00000000000006))).
Proof. repeat split; vm_compute; reflexivity. Qed.

(** C1, as stated, fails on its worked example: on the driver's walking
    record [get_spent_calories] does not return 157.5 but the next float
    above it, whichever double [pow] returns for the squared speed. *)
Lemma walking_example_is_not_157_5 :
  on_both (fun libm =>
    exists x : spec_float,
      get_spent_calories (libm := libm) walking_example
      = (walking_example, Ok (PyFloat x)) /\
      SFeqb x (flt 157.5) = false /\
      SFltb (flt 157.5) x = true).
Proof.
  split; eexists;
    (split; [vm_compute; reflexivity | split; vm_compute; reflexivity]).
Qed.

(** C3, as stated, fails on its worked example: on the driver's running
    record [get_spent_calories] returns 699.75, not 722.25. *)
Lemma running_example_is_not_722_25 :
  get_spent_calories running_example
  = (running_example, Ok (PyFloat (flt 699.75))) /\
  snd (get_spent_calories running_example) <> Ok (PyFloat (flt 722.25)).
Proof.
  split; [vm_compute; reflexivity | vm_compute; discriminate].
Qed.

Lemma summary_label_is_class_name_witness :
  exists rest : string,
    ("Тип тренировки: SportsWalking; Длительность: 1.000 ч.; "
     ++ "Дистанция: 5.850 км; Ср. скорость: 5.850 км/ч; "
     ++ "Потрачено ккал: 157.500.")%string
    = ("Тип тренировки: SportsWalking; " ++ rest)%string.
Proof.
  refine (proj2 (proj2 (proj2 (proj2
    (summary_label_is_class_name "WLK"
       [PyInt 9000; PyInt 1; PyInt 75; PyInt 180]
       walking_example
       (InfoMessage.Build "SportsWalking" (PyInt 1) (PyFloat (flt 5.85))
          (PyFloat (flt 5.85)) (PyFloat (flt 157.50000000000003)))
       _ _ _ _)))) _).
  - reflexivity.
  - vm_compute; reflexivity.
  - vm_compute; reflexivity.
  - reflexivity.
Defined.

(** C5, as stated, fails: a workout whose mean speed overflows has a
    summary in which speed and calories are rendered as inf, with no
    decimal digit. *)
Lemma summary_of_infinite_speed :
  let self := Running (PyInt 1) (PyFloat (flt 1e-320)) (PyInt 75) in
  exists info : InfoMessage.t,
    show_training_info self = (self, Ok info) /\
    InfoMessage.speed info = PyFloat (S754_infinity false) /\
    InfoMessage.get_message info
    = (info,
       Ok ("Тип тренировки: Running; Длительность: 0.000 ч.; "
           ++ "Дистанция: 0.001 км; Ср. скорость: inf км/ч; "
           ++ "Потрачено ккал: inf.")%string) /\
    format_3f (InfoMessage.speed info) = Ok "inf"%string /\
    ~ three_decimals "inf".
Proof.
  eexists. split; [vm_compute; reflexivity |].
  split; [reflexivity |]. split; [vm_compute; reflexivity |].
  split; [reflexivity | apply no_three_decimals_in_inf].
Qed.

(** C7, as stated, fails: with a duration and a height that are not
    zero, an action count too large for a float makes [get_distance]
    raise OverflowError, and so does a squared speed out of the range of
    a float in SportsWalking's [get_spent_calories], on any library. *)
Lemma nonzero_inputs_can_overflow :
  (let self := Running (PyInt (10 ^ 400)) (PyInt 1) (PyInt 75) in
   nonzero_divisors self = true /\
   snd (get_distance self) = Raise OverflowError /\
   on_both (fun libm =>
     main (libm := libm) self [] = ([], Raise OverflowError))) /\
  (let self := SportsWalking (PyInt 9000) (PyFloat (flt 1e-200))
                             (PyInt 75) (PyInt 180) in
   nonzero_divisors self = true /\
   snd (get_mean_speed self) = Ok (PyFloat (flt 5.85e200)) /\
   on_both (fun libm =>
     snd (get_spent_calories (libm := libm) self) = Raise OverflowError)).
Proof. repeat split; vm_compute; reflexivity. Qed.

Lemma metric_operations_faults_witness :
  (is_ok (snd (get_distance walking_example)) = true /\
   is_ok (snd (get_mean_speed walking_example)) = true /\
   is_ok (snd (get_spent_calories walking_example)) = true) /\
  snd (get_mean_speed (Running (PyInt 15000) (PyInt 0) (PyInt 75)))
  = Raise ZeroDivisionError /\
  snd (get_spent_calories
         (SportsWalking (PyInt 9000) (PyInt 1) (PyInt 75) (PyFloat (flt 0.0))))
  = Raise ZeroDivisionError /\
  main (Running (PyInt 15000) (PyInt 0) (PyInt 75)) []
  = ([], Raise ZeroDivisionError).
Proof.
  split; [| split; [| split]].
  - apply (proj1 (proj2 (metric_operations_faults walking_example [])));
      vm_compute; reflexivity.
  - apply (proj1 (proj2 (proj2
             (metric_operations_faults
                (Running (PyInt 15000) (PyInt 0) (PyInt 75)) []))));
      vm_compute; reflexivity.
  - apply (proj1 (proj2 (proj2 (proj2
             (metric_operations_faults
                (SportsWalking (PyInt 9000) (PyInt 1) (PyInt 75)
                   (PyFloat (flt 0.0))) [])))));
      vm_compute; reflexivity.
  - apply (proj2 (proj2 (proj2 (proj2 (proj2
             (metric_operations_faults
                (Running (PyInt 15000) (PyInt 0) (PyInt 75)) [])))))).
    vm_compute; reflexivity.
Defined.

Lemma metrics_return_floats_witness :
  exists f : spec_float, PyFloat (flt 699.75) = PyFloat f.
Proof.
  apply (metrics_return_floats running_example (PyFloat (flt 699.75))).
  right. right. vm_compute. reflexivity.
Defined.

Lemma main_prints_the_summary_witness :
  main (Running (PyInt 15000) (PyInt 0) (PyInt 75)) ["earlier"%string]
  = (["earlier"%string], Raise ZeroDivisionError).
Proof.
  apply (proj2 (main_prints_the_summary
                  (Running (PyInt 15000) (PyInt 0) (PyInt 75))
                  ["earlier"%string])).
  vm_compute. reflexivity.
Defined.

Lemma run_prints_in_order_witness :
  run (("SWM", [PyInt 720; PyInt 1; PyInt 80; PyInt 25; PyInt 40])
       :: ("XYZ", [PyInt 1]) :: ("RUN", [PyInt 15000; PyInt 1; PyInt 75])
       :: nil)%string []
  = (["Тип тренировки: Swimming; Длительность: 1.000 ч.; Дистанция: 0.994 км; Ср. скорость: 1.000 км/ч; Потрачено ккал: 336.000."%string],
     Raise (ValueError unknown_workout)).
Proof.
  refine (proj2 (run_prints_in_order _ [])
            [("SWM", [PyInt 720; PyInt 1; PyInt 80; PyInt 25; PyInt 40])]%string
            ("XYZ", [PyInt 1])%string
            [("RUN", [PyInt 15000; PyInt 1; PyInt 75])]%string
            _ _ eq_refl _ _).
  - constructor; [vm_compute; reflexivity | constructor].
  - reflexivity.
Defined.

Lemma swimming_calories_nonneg_witness :
  exists kcal : spec_float,
    get_spent_calories swimming_example
    = (swimming_example, Ok (PyFloat kcal)) /\
    F64.nonneg kcal = true.
Proof.
  apply (swimming_calories_nonneg (PyInt 720) (PyInt 1) (PyInt 80)
           (PyInt 25) (PyInt 40)); vm_compute; reflexivity.
Defined.

Lemma slow_walker_calories_witness :
  get_spent_calories walking_example
  = (walking_example, weight_term_calories (PyInt 75) (PyInt 1)).
Proof.
  apply (slow_walker_calories (PyInt 9000) (PyInt 1) (PyInt 75) (PyInt 180)
           (flt 5.85) (flt 34.22249999999999) (flt 180) (flt 75));
    vm_compute; reflexivity.
Defined.

Lemma slow_runner_calories_not_positive_witness :
  exists kcal : spec_float,
    get_spent_calories (Running (PyInt 1000) (PyInt 1) (PyInt 75))
    = (Running (PyInt 1000) (PyInt 1) (PyInt 75), Ok (PyFloat kcal)) /\
    F64.signbit kcal = true /\ SFleb kcal F64.pzero = true.
Proof.
  apply (slow_runner_calories_not_positive (PyInt 1000) (PyInt 1) (PyInt 75)
           (flt 0.65)); vm_compute; reflexivity.
Defined.
